(** * SpecForge: the live mock registration subsystem of [main.py]

    A shallow embedding of the server side of [main.py]: the key generator
    [generate_api_key], the guard [verify_live_api_key], the endpoint
    [generate_api] with the closure factory [create_mock_handler], the
    download endpoint [download_api], and the form check of the page's
    [generateAPI] script.

    Python objects that can be shared live on an explicit heap: the
    envelope dict, the [example_data] dict and the handler functions are
    reached through references, and a handler closure keeps the reference it
    was created with.  The one dict bound to the global [MOCK_CONFIG] is a
    component of the process state.

    What the program leaves to its surroundings is an argument: the outcome
    of [random.choices], whether the file system lets a file be written,
    and how FastAPI compiles a route path that has [{] parameters.  A call
    that raises is a call without a result; the state it leaves is the
    state at the moment of the exception.

    Text is a [string] of the Standard Library, a sequence of bytes.  For
    ASCII text [lower], [upper] and slicing are Python's; for other text
    Python works on code points, and the properties that depend on it are
    stated for ASCII names. *)

From Stdlib Require Import Ascii String List Bool Arith Lia.
From stdpp Require Import base option list strings gmap fin_maps.

Local Open Scope string_scope.

(** ** Built-in string operations used by the source *)

Module PyStr.

(** [c.lower()] for one ASCII character; a byte of a longer code point
    is left as it is. *)
Definition lower_char (c : ascii) : ascii :=
  let n := nat_of_ascii c in
  if (65 <=? n)%nat && (n <=? 90)%nat then ascii_of_nat (n + 32) else c.

(** [c.upper()] for one ASCII character; a byte of a longer code point
    is left as it is. *)
Definition upper_char (c : ascii) : ascii :=
  let n := nat_of_ascii c in
  if (97 <=? n)%nat && (n <=? 122)%nat then ascii_of_nat (n - 32) else c.

(** [s.lower()] on ASCII text. *)
Fixpoint lower (s : string) : string :=
  match s with
  | EmptyString => EmptyString
  | String c r => String (lower_char c) (lower r)
  end.

(** [s.upper()] on ASCII text. *)
Fixpoint upper (s : string) : string :=
  match s with
  | EmptyString => EmptyString
  | String c r => String (upper_char c) (upper r)
  end.

(** [s.replace(old, empty)]: every occurrence of the one-character string
    [old] is removed. *)
Fixpoint remove_char (old : ascii) (s : string) : string :=
  match s with
  | EmptyString => EmptyString
  | String c r =>
      if Ascii.eqb c old then remove_char old r
      else String c (remove_char old r)
  end.

(** [s[:n]]: the first [n] characters, or all of [s] when it is shorter
    (characters are bytes here, code points in Python: the same for ASCII
    text). *)
Fixpoint prefix (n : nat) (s : string) : string :=
  match n, s with
  | S m, String c r => String c (prefix m r)
  | _, _ => EmptyString
  end.

(** [s[i]] *)
Fixpoint index (i : nat) (s : string) : option ascii :=
  match s, i with
  | EmptyString, _ => None
  | String c _, O => Some c
  | String _ r, S j => index j r
  end.

(** [string.digits] *)
Definition digits : string := "0123456789".

(** The ASCII white space characters, [string.whitespace]: space, tab,
    line feed, vertical tab, form feed and carriage return.  They are also
    the ASCII characters JavaScript's [trim] removes. *)
Definition whitespace (c : ascii) : bool :=
  let n := nat_of_ascii c in
  (n =? 32)%nat || ((9 <=? n)%nat && (n <=? 13)%nat).

Definition isupper (c : ascii) : bool :=
  let n := nat_of_ascii c in (65 <=? n)%nat && (n <=? 90)%nat.

Definition isdigit (c : ascii) : bool :=
  let n := nat_of_ascii c in (48 <=? n)%nat && (n <=? 57)%nat.

(** [all(p(c) for c in s)] *)
Fixpoint all (p : ascii -> bool) (s : string) : bool :=
  match s with
  | EmptyString => true
  | String c r => p c && all p r
  end.

(** [any(p(c) for c in s)] *)
Fixpoint any (p : ascii -> bool) (s : string) : bool :=
  match s with
  | EmptyString => false
  | String c r => p c || any p r
  end.

(** [s.startswith(c)] and [s.endswith(c)] for one character. *)
Definition startswith (c : ascii) (s : string) : bool :=
  match s with
  | String d _ => Ascii.eqb d c
  | EmptyString => false
  end.

Fixpoint endswith (c : ascii) (s : string) : bool :=
  match s with
  | EmptyString => false
  | String d EmptyString => Ascii.eqb d c
  | String _ r => endswith c r
  end.

End PyStr.

(** ** The random source

    [random.choices(population, k=k)] draws [k] indices into [population],
    each [floor(random() * len(population))].  The outcome of the draws of
    one call is the function [rng]: [rng i] is the i-th number drawn. *)

Module PyRandom.

Fixpoint choices_from (population : string) (rng : nat -> nat)
    (i k : nat) : string :=
  match k with
  | O => EmptyString
  | S k' =>
      match PyStr.index (rng i mod String.length population) population with
      | Some c => String c (choices_from population rng (S i) k')
      | None => choices_from population rng (S i) k'
      end
  end.

(** [''.join(random.choices(population, k=k))] *)
Definition choices (population : string) (k : nat) (rng : nat -> nat)
    : string :=
  choices_from population rng 0 k.

End PyRandom.

(** ** Helper: Generate API Key *)

Definition generate_api_key (app1 app2 : string) (rng : nat -> nat) : string :=
  let prefix := PyStr.upper (PyStr.prefix 3 app1) in
  let suffix := PyStr.upper (PyStr.prefix 3 app2) in
  let rand := PyRandom.choices PyStr.digits 4 rng in
  prefix ++ "-" ++ rand ++ "-" ++ suffix.

(** The normalisation [generate_api] applies to each service name:
    [app.lower()], then [replace] of the space character by the empty
    string. *)
Definition clean (app : string) : string :=
  PyStr.remove_char " "%char (PyStr.lower app).

(** ** Python values, the heap and JSON *)

Definition loc := nat.

(** The values the program stores in dicts.  A dict is never stored by
    value: [VRef l] is a reference to the object at address [l]. *)
Inductive pyval :=
| VBool (b : bool)
| VStr (s : string)
| VStrList (xs : list string)
| VRef (l : loc).

(** Heap objects: dicts with string keys, and the function objects
    [create_mock_handler] returns.  A function object carries the two
    variables its closure captured ([mock_data], [auth_required]) and the
    attribute [_name_] the registration loop sets on it. *)
Inductive pyobj :=
| ODict (d : gmap string pyval)
| OFunc (mock_data : pyval) (auth_required : bool) (_name_ : option string).

#[global] Instance pyval_eq_dec : EqDecision pyval.
Proof. solve_decision. Defined.

(** What [json.dumps] produces. *)
#[local] Unset Elimination Schemes.
Inductive json :=
| JNull
| JBool (b : bool)
| JStr (s : string)
| JArr (xs : list json)
| JObj (kvs : gmap string json).
#[local] Set Elimination Schemes.

(** Apply a fallible function to every value of a dict. *)
Definition dict_mapM {A B} (f : A -> option B) (d : gmap string A)
    : option (gmap string B) :=
  map_fold (fun k a acc =>
              match f a, acc with
              | Some b, Some m => Some (<[k := b]> m)
              | _, _ => None
              end) (Some ∅) d.

(** Serialise the value [v] to JSON, following references into the heap
    [h].  [None] when the value cannot be serialised (a function object, a
    dangling reference, or nesting deeper than [fuel]). *)
Fixpoint render (fuel : nat) (h : list pyobj) (v : pyval) : option json :=
  match fuel with
  | O => None
  | S n =>
      match v with
      | VBool b => Some (JBool b)
      | VStr s => Some (JStr s)
      | VStrList xs => Some (JArr (JStr <$> xs))
      | VRef l =>
          match h !! l with
          | Some (ODict d) => JObj <$> dict_mapM (render n h) d
          | _ => None
          end
      end
  end.

(** [json.dumps(v)]: an object graph without cycles is never nested deeper
    than the heap has objects, so that much fuel serialises it in full; a
    cyclic one yields [None] ([json.dumps] raises on a circular
    reference). *)
Definition dumps (h : list pyobj) (v : pyval) : option json :=
  render (S (length h)) h v.

(** Python truthiness of the result of [dict.get]; [None] (key absent)
    is false. *)
Definition truthy (h : list pyobj) (v : option pyval) : bool :=
  match v with
  | None => false
  | Some (VBool b) => b
  | Some (VStr s) => negb (String.eqb s EmptyString)
  | Some (VStrList xs) => match xs with [] => false | _ => true end
  | Some (VRef l) =>
      match h !! l with
      | Some (ODict d) => negb (bool_decide (d = ∅))
      | _ => true
      end
  end.

(** ** Responses *)

Inductive response :=
| JSONResponse (content : json) (status_code : nat)
| FileResponse (body : string) (filename : string)
| HTTPException (status_code : nat) (detail : string)
| InternalServerError
(** one of the routes written in the source or added by FastAPI (the
    page, the generator, the download endpoint, the documentation)
    answers *)
| FixedRoute
(** no route matches: the router redirects to the path with its final
    slash added or removed when that path has a route, and answers 404
    otherwise *)
| NoRoute.

(** ** The server process *)

(** A route of the router: the path it was registered with, the matcher
    the path was compiled to, and the address of the endpoint function. *)
Record route := Route {
  route_path : string;
  route_matches : string -> bool;
  route_endpoint : loc
}.

Record server := Server {
  heap : list pyobj;
  (** the module-level dict [MOCK_CONFIG], mutated in place *)
  MOCK_CONFIG : gmap string pyval;
  (** the routes [app.add_api_route] added at run time, oldest first *)
  routes : list route;
  (** paths written by [create_python_api_file], oldest first *)
  written : list string
}.

(** The process at start-up: [MOCK_CONFIG = {}], no dynamic route. *)
Definition startup : server :=
  {| heap := []; MOCK_CONFIG := ∅; routes := []; written := [] |}.

(** Allocate a new object; its address is the next free one. *)
Definition alloc (o : pyobj) (s : server) : loc * server :=
  (length (heap s),
   {| heap := heap s ++ [o]; MOCK_CONFIG := MOCK_CONFIG s;
      routes := routes s; written := written s |}).

(** ** Helper: Authentication Dependency *)

(** [not api_key] for the optional header value. *)
Definition header_falsy (api_key : option string) : bool :=
  match api_key with
  | None => true
  | Some k => String.eqb k EmptyString
  end.

(** [api_key != v]: a header value differs from anything but an equal
    string. *)
Definition header_ne (api_key : option string) (v : pyval) : bool :=
  match api_key, v with
  | Some k, VStr c => negb (String.eqb k c)
  | _, _ => true
  end.

Definition verify_live_api_key (s : server) (api_key : option string)
    : response + bool :=
  if truthy (heap s) (MOCK_CONFIG s !! "auth_required")
     && truthy (heap s) (MOCK_CONFIG s !! "api_key")
  then
    match MOCK_CONFIG s !! "api_key" with
    | Some current =>
        if header_falsy api_key || header_ne api_key current
        then inl (HTTPException 401 "Invalid or missing X-API-Key header")
        else inr true
    | None => inl InternalServerError
    end
  else inr true.

(** ** Endpoint: Generate API File *)

Record query := Query {
  app1 : string;
  app2 : string;
  fields : list string;
  require_auth : bool
}.

(** [Query(["id", "name", "status"])] *)
Definition default_fields : list string := ["id"; "name"; "status"].

(** The dict [generate_api] returns. *)
Record generated := Generated {
  message : string;
  file_name : string;
  download_link : string;
  connection : string;
  auth_required : bool;
  specforge_api_key : string;
  example_data : json;
  endpoint_example : option string
}.

(** [{f: f"sample_{f}" for f in fields}]: one insertion per element, in
    order, a later one overwriting an earlier one with the same key. *)
Definition sample_dict (fs : list string) : gmap string pyval :=
  foldl (fun d f => <[f := VStr ("sample_" ++ f)]> d) ∅ fs.

(** [create_mock_handler(mock_data, auth_required)] returns a new function
    object whose closure holds the two arguments. *)
Definition create_mock_handler (mock_data : pyval) (auth_required : bool)
    (s : server) : loc * server :=
  alloc (OFunc mock_data auth_required None) s.

(** ** The router

    FastAPI compiles the path of a route when the route is added.  A path
    without [{] has no parameter: it is always accepted, and the compiled
    expression is the escaped path followed by [$], which a request path
    matches when it is that path, or that path followed by one line feed.
    For a path with [{] the framework decides: [compile_pattern] gives the
    matcher, or [None] when compiling raises (a parameter name used twice,
    an unknown convertor). *)

Record framework := Framework {
  compile_pattern : string -> option (string -> bool)
}.

Definition has_brace (path : string) : bool :=
  PyStr.any (fun c => Ascii.eqb c "{") path.

Definition line_feed : string := String (ascii_of_nat 10) EmptyString.

Definition literal_match (route_path request_path : string) : bool :=
  String.eqb request_path route_path
  || String.eqb request_path (route_path ++ line_feed).

Definition compile_path (fw : framework) (path : string) : option (string -> bool) :=
  if has_brace path then compile_pattern fw path else Some (literal_match path).

(** [mock_handler._name_ = f"mock_route_for_{endpoint.replace('/','')}"] *)
Definition set_route_name (mock_handler : loc) (endpoint : string) (s : server)
    : server :=
  let name := "mock_route_for_" ++ PyStr.remove_char "/"%char endpoint in
  let heap' :=
    match heap s !! mock_handler with
    | Some (OFunc md ar _) => <[mock_handler := OFunc md ar (Some name)]> (heap s)
    | _ => heap s
    end in
  {| heap := heap'; MOCK_CONFIG := MOCK_CONFIG s;
     routes := routes s; written := written s |}.

(** [app.add_api_route(endpoint, mock_handler, methods=["GET"])]: the new
    route goes to the end of the route list; [None] when the call
    raises. *)
Definition add_api_route (fw : framework) (path : string) (endpoint : loc)
    (s : server) : option server :=
  match compile_path fw path with
  | Some matcher =>
      Some {| heap := heap s; MOCK_CONFIG := MOCK_CONFIG s;
              routes := routes s ++ [Route path matcher endpoint];
              written := written s |}
  | None => None
  end.

(** [for endpoint in endpoints]: set [_name_] on the (one) function
    object, then add the route.  The loop ends at the first call that
    raises; the flag tells whether it ran to its end. *)
Fixpoint add_endpoints (fw : framework) (mock_handler : loc) (s : server)
    (endpoints : list string) : server * bool :=
  match endpoints with
  | [] => (s, true)
  | endpoint :: rest =>
      let s := set_route_name mock_handler endpoint s in
      match add_api_route fw endpoint mock_handler s with
      | Some s => add_endpoints fw mock_handler s rest
      | None => (s, false)
      end
  end.

(** [os.path.join(a, b)] of [posixpath]. *)
Definition os_path_join (a b : string) : string :=
  if PyStr.startswith "/"%char b then b
  else if String.eqb a EmptyString || PyStr.endswith "/"%char a then a ++ b
  else a ++ "/" ++ b.

(** [create_python_api_file]: writes the rendering of its five arguments to
    [generated_apis/<filename>].  [disk path] tells whether [os.makedirs],
    [open(path, "w")] and the writes succeed; when they do not the call
    raises (flag [false]).  Only the path of a written file is recorded;
    nothing the live routes do reads the file. *)
Definition create_python_api_file (disk : string -> bool) (filename : string)
    (s : server) : server * bool :=
  let filepath := os_path_join "generated_apis" filename in
  if disk filepath then
    ({| heap := heap s; MOCK_CONFIG := MOCK_CONFIG s; routes := routes s;
        written := written s ++ [filepath] |}, true)
  else (s, false).

(** The endpoint.  The result is [None] when the call raises, which the
    client sees as a 500 answer. *)
Definition generate_api (fw : framework) (q : query) (rng : nat -> nat)
    (disk : string -> bool) (s : server) : server * option generated :=
  let api_key := generate_api_key (app1 q) (app2 q) rng in
  let app1_clean := clean (app1 q) in
  let app2_clean := clean (app2 q) in
  let endpoints := ["/" ++ app1_clean ++ "to" ++ app2_clean;
                    "/" ++ app2_clean ++ "to" ++ app1_clean] in
  let '(example_data, s) := alloc (ODict (sample_dict (fields q))) s in
  let filename := app1_clean ++ "_" ++ app2_clean ++ "_api.py" in
  (* 1. Update global config *)
  let '(envelope, s) :=
    alloc (ODict (<["data" := VRef example_data]>
                    (<["status" := VStr "success"]> ∅))) s in
  let s :=
    {| heap := heap s;
       MOCK_CONFIG :=
         (<["endpoints" := VStrList endpoints]>
            (<["example_data" := VRef envelope]>
               (<["auth_required" := VBool (require_auth q)]>
                  (<["api_key" := VStr api_key]> ∅)))) ∪ MOCK_CONFIG s;
       routes := routes s; written := written s |} in
  (* 4. Add new endpoints to the running app instance *)
  match MOCK_CONFIG s !! "example_data" with
  | None => (s, None)
  | Some mock_data =>
      let '(mock_handler, s) := create_mock_handler mock_data (require_auth q) s in
      match add_endpoints fw mock_handler s endpoints with
      | (s, false) => (s, None)
      | (s, true) =>
          match create_python_api_file disk filename s with
          | (s, false) => (s, None)
          | (s, true) =>
              match dumps (heap s) (VRef example_data) with
              | None => (s, None)
              | Some data =>
                  (s, Some {| message := "API File Generated Successfully! Live endpoints added.";
                              file_name := filename;
                              download_link := "/download_api?file=" ++ filename;
                              connection := app1 q ++ " ↔ " ++ app2 q;
                              auth_required := require_auth q;
                              specforge_api_key := api_key;
                              example_data := data;
                              endpoint_example := head endpoints |})
              end
          end
      end
  end.

(** ** Live calls *)

(** The routes the application has before any generation, in the order of
    the route list: the four FastAPI adds when the application object is
    made (no documentation address is given to it, so the default ones),
    then the three written in the source.  They stand before every route
    added at run time. *)
Definition fixed_routes : list string :=
  ["/openapi.json"; "/docs"; "/docs/oauth2-redirect"; "/redoc";
   "/generate_api"; "/download_api"; "/"].

Definition is_fixed (path : string) : bool :=
  existsb (fun r => literal_match r path) fixed_routes.

(** The router serves a request with the first route, in registration
    order, that matches its path. *)
Fixpoint dispatch (rs : list route) (path : string) : option loc :=
  match rs with
  | [] => None
  | r :: rest =>
      if route_matches r path then Some (route_endpoint r)
      else dispatch rest path
  end.

(** The body of [mock_handler], run with the [mock_data] of its closure:
    [if auth_ok: return JSONResponse(content=mock_data, status_code=200)];
    falling off the end returns [None], served as JSON [null].  The
    response is serialised when it is built, from the heap of that
    moment. *)
Definition mock_handler (s : server) (mock_data : pyval) (auth_ok : bool)
    : response :=
  if auth_ok then
    match dumps (heap s) mock_data with
    | Some content => JSONResponse content 200
    | None => InternalServerError
    end
  else JSONResponse JNull 200.

(** [GET path], with [x_api_key] the value FastAPI hands to the guard for
    the header [X-API-Key]: [None] when the header is absent. *)
Definition live_get (s : server) (path : string) (x_api_key : option string)
    : response :=
  if is_fixed path then FixedRoute
  else
    match dispatch (routes s) path with
    | None => NoRoute
    | Some f =>
        match heap s !! f with
        | Some (OFunc mock_data _ _) =>
            match verify_live_api_key s x_api_key with
            | inl failure => failure
            | inr auth_ok => mock_handler s mock_data auth_ok
            end
        | _ => InternalServerError
        end
    end.

(** One generation call: the request, the numbers the random source draws
    during it, and what the file system allows during it. *)
Record call := Call {
  call_query : query;
  call_rng : nat -> nat;
  call_disk : string -> bool
}.

(** A history of generation calls, oldest first, from start-up; a call
    that raised leaves the state it had reached. *)
Definition run (fw : framework) (calls : list call) : server :=
  foldl (fun s c => fst (generate_api fw (call_query c) (call_rng c) (call_disk c) s))
        startup calls.

(** ** Endpoint: Download File *)

(** What [os.stat] finds at a path. *)
Inductive fsnode :=
| RegularFile (content : string)
| Directory.

Section Download.

(** The file system as the operating system resolves a path string
    (relative to the working directory, [..] and separators included);
    [None] when nothing exists there. *)
Variable stat : string -> option fsnode.

(** [os.path.exists(path)] *)
Definition os_path_exists (path : string) : bool :=
  match stat path with
  | Some _ => true
  | None => false
  end.

(** [FileResponse(path, filename=file)] sends the bytes of a regular
    file and fails on anything else. *)
Definition send_file (path file : string) : response :=
  match stat path with
  | Some (RegularFile content) => FileResponse content file
  | _ => InternalServerError
  end.

Definition download_api (file : string) : response :=
  let path := os_path_join "generated_apis" file in
  if os_path_exists path then send_file path file
  else HTTPException 404 "File not found".

End Download.

(** ** The page script [generateAPI] *)

Module Page.

(** [String.prototype.trim] on ASCII text. *)
Fixpoint trimStart (s : string) : string :=
  match s with
  | EmptyString => EmptyString
  | String c r => if PyStr.whitespace c then trimStart r else s
  end.

Fixpoint trimEnd (s : string) : string :=
  match s with
  | EmptyString => EmptyString
  | String c r =>
      match trimEnd r with
      | EmptyString => if PyStr.whitespace c then EmptyString else String c EmptyString
      | r' => String c r'
      end
  end.

Definition trim (s : string) : string := trimEnd (trimStart s).

(** [s.split(sep)] for a one-character separator. *)
Fixpoint split (sep : ascii) (s : string) : list string :=
  match s with
  | EmptyString => [EmptyString]
  | String c r =>
      if Ascii.eqb c sep then EmptyString :: split sep r
      else match split sep r with
           | h :: t => String c h :: t
           | [] => [String c EmptyString]
           end
  end.

(** [f => f.trim() !== ''] *)
Definition nonblank (f : string) : bool := negb (String.eqb (trim f) EmptyString).

(** The script run by the form: from the values of the inputs [app1],
    [app2], [fields] and [auth] it either raises an alert and sends
    nothing ([None]) or sends the generation request it returns. *)
Definition generateAPI (app1_value app2_value fields_value auth_value : string)
    : option query :=
  let app1 := trim app1_value in
  let app2 := trim app2_value in
  let fields := filter (fun f => nonblank f = true) (split ","%char (trim fields_value)) in
  let requireAuth := String.eqb auth_value "true" in
  if String.eqb app1 EmptyString || String.eqb app2 EmptyString then None
  else if (length fields =? 0)%nat then None
  else Some {| app1 := app1; app2 := app2;
               fields := trim <$> fields; require_auth := requireAuth |}.

End Page.

(** ** Names for what one generation call produces

    With [l] the first free address when the call starts, the call
    allocates the [example_data] dict at [l], the envelope at [l + 1] and
    the handler function at [l + 2]. *)

(** The list [endpoints] of [generate_api]. *)
Definition endpoints_of (q : query) : list string :=
  ["/" ++ clean (app1 q) ++ "to" ++ clean (app2 q);
   "/" ++ clean (app2 q) ++ "to" ++ clean (app1 q)].

(** The name [filename] of [generate_api], and the path it is written to. *)
Definition filename_of (q : query) : string :=
  clean (app1 q) ++ "_" ++ clean (app2 q) ++ "_api.py".

Definition filepath_of (q : query) : string :=
  os_path_join "generated_apis" (filename_of q).

(** The dict literal passed to [MOCK_CONFIG.update]. *)
Definition config_of (q : query) (rng : nat -> nat) (envelope : loc)
    : gmap string pyval :=
  <["endpoints" := VStrList (endpoints_of q)]>
    (<["example_data" := VRef envelope]>
       (<["auth_required" := VBool (require_auth q)]>
          (<["api_key" := VStr (generate_api_key (app1 q) (app2 q) rng)]> ∅))).

(** The dict literal [{"status": "success", "data": example_data}]. *)
Definition envelope_of (data : loc) : gmap string pyval :=
  <["data" := VRef data]> (<["status" := VStr "success"]> ∅).

(** The value assigned to [mock_handler._name_]. *)
Definition route_name (endpoint : string) : string :=
  "mock_route_for_" ++ PyStr.remove_char "/"%char endpoint.

(** The routes the loop adds for a list of endpoints, bound to the handler
    at [f]: one for each endpoint before the first the router refuses. *)
Fixpoint new_routes (fw : framework) (f : loc) (endpoints : list string)
    : list route :=
  match endpoints with
  | [] => []
  | endpoint :: rest =>
      match compile_path fw endpoint with
      | Some matcher => Route endpoint matcher f :: new_routes fw f rest
      | None => []
      end
  end.

(** The router accepts every endpoint of the list. *)
Fixpoint all_accepted (fw : framework) (endpoints : list string) : bool :=
  match endpoints with
  | [] => true
  | endpoint :: rest =>
      match compile_path fw endpoint with
      | Some _ => all_accepted fw rest
      | None => false
      end
  end.

(** The attribute [_name_] of the handler after the loop: it was set for
    every endpoint up to and including the first the router refuses. *)
Fixpoint name_after (fw : framework) (name : option string)
    (endpoints : list string) : option string :=
  match endpoints with
  | [] => name
  | endpoint :: rest =>
      match compile_path fw endpoint with
      | Some _ => name_after fw (Some (route_name endpoint)) rest
      | None => Some (route_name endpoint)
      end
  end.

(** The call returns: both routes were accepted and the file was written. *)
Definition succeeds (fw : framework) (q : query) (disk : string -> bool) : bool :=
  all_accepted fw (endpoints_of q) && disk (filepath_of q).

(** The process after [generate_api q] ran in [s] (see
    [generate_api_spec]). *)
Definition generated_state (fw : framework) (q : query) (rng : nat -> nat)
    (disk : string -> bool) (s : server) : server :=
  let l := length (heap s) in
  {| heap := heap s ++ [ODict (sample_dict (fields q)); ODict (envelope_of l);
                        OFunc (VRef (S l)) (require_auth q)
                          (name_after fw None (endpoints_of q))];
     MOCK_CONFIG := config_of q rng (S l) ∪ MOCK_CONFIG s;
     routes := routes s ++ new_routes fw (S (S l)) (endpoints_of q);
     written := written s ++ (if succeeds fw q disk then [filepath_of q] else []) |}.

(** The serialisation of a string value. *)
Definition json_of_str (v : pyval) : json :=
  match v with VStr s => JStr s | _ => JNull end.

(** The serialised payload template of a field list, and its envelope
    [{status: "success", data: payloadTemplate}]. *)
Definition payload_template (fs : list string) : gmap string json :=
  foldl (fun d f => <[f := JStr ("sample_" ++ f)]> d) ∅ fs.

Definition envelope_json (fs : list string) : json :=
  JObj (<["data" := JObj (payload_template fs)]> (<["status" := JStr "success"]> ∅)).

(** The dict a call returns when it returns. *)
Definition generated_result (q : query) (rng : nat -> nat) : generated :=
  {| message := "API File Generated Successfully! Live endpoints added.";
     file_name := filename_of q;
     download_link := "/download_api?file=" ++ filename_of q;
     connection := app1 q ++ " ↔ " ++ app2 q;
     auth_required := require_auth q;
     specforge_api_key := generate_api_key (app1 q) (app2 q) rng;
     example_data := JObj (payload_template (fields q));
     endpoint_example := Some ("/" ++ clean (app1 q) ++ "to" ++ clean (app2 q)) |}.

(** The serialised envelope the configuration store holds now. *)
Definition current_envelope (s : server) : option json :=
  match MOCK_CONFIG s !! "example_data" with
  | Some v => dumps (heap s) v
  | None => None
  end.

(** The route table as paths and handler addresses. *)
Definition route_table (s : server) : list (string * loc) :=
  (fun r => (route_path r, route_endpoint r)) <$> routes s.

(** The handler registered last for a path. *)
Definition latest_handler (rs : list route) (path : string) : option loc :=
  dispatch (reverse rs) path.

(** How many route entries carry a path. *)
Definition entries_for (rs : list route) (path : string) : nat :=
  length (filter (fun r => route_path r = path) rs).

(** Every route entry is bound to a function object on the heap. *)
Definition routes_bound (s : server) : Prop :=
  Forall (fun r => exists md ar n, heap s !! route_endpoint r = Some (OFunc md ar n))
         (routes s).

(** ** The claims of the specification, as predicates *)

(** The credential the specification describes: built from the two slugs. *)
Definition credential_from_slugs (q : query) (rng : nat -> nat) : string :=
  PyStr.upper (PyStr.prefix 3 (clean (app1 q))) ++ "-"
  ++ PyRandom.choices PyStr.digits 4 rng ++ "-"
  ++ PyStr.upper (PyStr.prefix 3 (clean (app2 q))).


(** Registration as the specification wants it for a path: at most one
    entry, or dispatch to the handler registered last. *)
Definition registration_idempotent (s : server) (path : string) : Prop :=
  entries_for (routes s) path <= 1
  \/ dispatch (routes s) path = latest_handler (routes s) path.

(** ** Concrete requests and histories *)

Module Scenario.

(** A stand-in for the framework on paths with a parameter: it refuses
    them all.  The requests below produce no such path, so what they leave
    behind is the same with every framework (see
    [scenarios_with_any_framework]). *)
Definition no_patterns : framework := Framework (fun _ => None).

(** A file system that lets every file be written. *)
Definition writable : string -> bool := fun _ => true.

(** Outcomes of the random source: every draw 0, and draws 1, 2, 3, 4. *)
Definition zeros : nat -> nat := fun _ => 0.
Definition counting : nat -> nat := fun i => S i.

Definition ab_id (auth : bool) : query := Query "a" "b" ["id"] auth.
Definition ab_name (auth : bool) : query := Query "a" "b" ["name"] auth.
Definition cd_name (auth : bool) : query := Query "c" "d" ["name"] auth.
Definition spaced : query := Query "a b" "c" ["id"] true.

(** The name [a<TAB>b]. *)
Definition tabbed_name : string :=
  String "a" (String "009" (String "b" EmptyString)).

(** Two generations for the same pair of names, with different fields. *)
Definition regenerated (auth : bool) : server :=
  run no_patterns [Call (ab_id auth) zeros writable; Call (ab_name auth) counting writable].

(** Two generations for different pairs of names. *)
Definition second_pair (auth : bool) : server :=
  run no_patterns [Call (ab_id auth) zeros writable; Call (cd_name auth) counting writable].

(** A disk on which [main.py] sits next to the directory [generated_apis],
    which holds one emitted file. *)
Definition disk (path : string) : option fsnode :=
  if String.eqb path "generated_apis/../main.py" then Some (RegularFile "# specforge.py")
  else if String.eqb path "generated_apis/a_b_api.py" then Some (RegularFile "from fastapi import FastAPI")
  else if String.eqb path "generated_apis/" then Some Directory
  else None.

End Scenario.

(** ** Histories *)


(** The route entries the call number [i] of a history adds: its objects
    start at address [3 * i], the handler is the third. *)
Definition entries_of_call (fw : framework) (i : nat) (c : call) : list route :=
  new_routes fw (3 * i + 2) (endpoints_of (call_query c)).

(** The file the call writes, if it gets that far. *)
Definition written_by (fw : framework) (c : call) : list string :=
  if succeeds fw (call_query c) (call_disk c) then [filepath_of (call_query c)] else [].


(** The answer of the guard when it rejects. *)
Definition unauthorized : response :=
  HTTPException 401 "Invalid or missing X-API-Key header".

Definition islower (c : ascii) : bool :=
  let n := nat_of_ascii c in (97 <=? n)%nat && (n <=? 122)%nat.

(** [s.isascii()] *)
Definition isascii (s : string) : bool :=
  PyStr.all (fun c => (nat_of_ascii c <? 128)%nat) s.

(** [s.count(c)] for one character. *)
Fixpoint count_char (c : ascii) (s : string) : nat :=
  match s with
  | EmptyString => 0
  | String d r => (if Ascii.eqb d c then 1 else 0) + count_char c r
  end.


(** ** The text [create_python_api_file] writes *)

Module Emit.

(** Line feed. *)
Definition nl : string := String (ascii_of_nat 10) EmptyString.

(** The character U+00A0 (no-break space), as UTF-8. *)
Definition nbsp : string :=
  String (ascii_of_nat 194) (String (ascii_of_nat 160) EmptyString).

(** The indentation inside the string literals of the source: U+00A0,
    space, U+00A0, space. *)
Definition indent : string := nbsp ++ " " ++ nbsp ++ " ".

Definition single_quote : ascii := ascii_of_nat 39.
Definition double_quote : ascii := ascii_of_nat 34.
Definition backslash : ascii := ascii_of_nat 92.

(** A dict in insertion order.  [d[k] = v]: an existing key keeps its
    place and takes the new value, a new key goes to the end. *)
Fixpoint odict_set (k v : string) (d : list (string * string))
    : list (string * string) :=
  match d with
  | [] => [(k, v)]
  | (k', v') :: rest =>
      if String.eqb k' k then (k', v) :: rest
      else (k', v') :: odict_set k v rest
  end.

(** [{f: f"sample_{f}" for f in fields}], in insertion order. *)
Definition example_data_items (fs : list string) : list (string * string) :=
  foldl (fun d f => odict_set f ("sample_" ++ f) d) [] fs.

(** One lower-case hexadecimal digit. *)
Definition hex_digit (n : nat) : ascii :=
  if (n <? 10)%nat then ascii_of_nat (48 + n) else ascii_of_nat (87 + n).

(** [repr] of one character of an ASCII string delimited by [quote]. *)
Definition repr_char (quote c : ascii) : string :=
  let n := nat_of_ascii c in
  if Ascii.eqb c quote || Ascii.eqb c backslash then String backslash (String c EmptyString)
  else if (n =? 9)%nat then String backslash "t"
  else if (n =? 10)%nat then String backslash "n"
  else if (n =? 13)%nat then String backslash "r"
  else if (n <? 32)%nat || (n =? 127)%nat
       then String backslash (String "x" (String (hex_digit (n / 16))
                                            (String (hex_digit (n mod 16)) EmptyString)))
  else String c EmptyString.

Fixpoint repr_chars (quote : ascii) (s : string) : string :=
  match s with
  | EmptyString => EmptyString
  | String c r => repr_char quote c ++ repr_chars quote r
  end.

(** [repr(s)] for ASCII text: single quotes, unless the text has a single
    quote and no double quote. *)
Definition repr (s : string) : string :=
  let quote :=
    if PyStr.any (fun c => Ascii.eqb c single_quote) s
       && negb (PyStr.any (fun c => Ascii.eqb c double_quote) s)
    then double_quote else single_quote in
  String quote (repr_chars quote s ++ String quote EmptyString).

(** [str(d)] for a dict of strings. *)
Definition dict_str (d : list (string * string)) : string :=
  "{" ++ String.concat ", " (map (fun kv => repr kv.1 ++ ": " ++ repr kv.2) d) ++ "}".

(** [s.replace(old, empty)] for a non-empty [old]: scanning from the left,
    every occurrence found is dropped; [skip] characters of an occurrence
    are still to be dropped. *)
Fixpoint remove_from (old : string) (skip : nat) (s : string) : string :=
  match s with
  | EmptyString => EmptyString
  | String c r =>
      match skip with
      | S k => remove_from old k r
      | O =>
          if String.prefix old s then remove_from old (String.length old - 1) r
          else String c (remove_from old 0 r)
      end
  end.

Definition remove (old s : string) : string := remove_from old 0 s.

(** The definition of [verify_api_key] written when [auth_required]. *)
Definition gate_text : string :=
  "def verify_api_key(api_key: Optional[str] = Header(None, alias='X-API-Key')):" ++ nl
  ++ indent ++ "if not api_key or api_key != HARDCODED_API_KEY:" ++ nl
  ++ indent ++ indent
  ++ "raise HTTPException(status_code=401, detail='Invalid or missing X-API-Key header')" ++ nl
  ++ indent ++ "return True" ++ nl ++ nl.

(** The three writes of one pass of [for endpoint in endpoints]. *)
Definition route_text (example_data : list (string * string)) (auth_required : bool)
    (endpoint : string) : string :=
  let dep := if auth_required then ", dependencies=[Depends(verify_api_key)]"
             else EmptyString in
  "@app.get('" ++ endpoint ++ "'" ++ dep ++ ")" ++ nl
  ++ "def get_data():" ++ nl
  ++ indent ++ "return {'status':'success','data':" ++ dict_str example_data ++ "}" ++ nl ++ nl.

(** Everything [create_python_api_file] writes to the file, in order. *)
Definition api_file_text (filename : string) (endpoints : list string)
    (example_data : list (string * string)) (auth_required : bool)
    (dynamic_api_key : string) : string :=
  "from fastapi import FastAPI, Header, HTTPException, Depends" ++ nl
  ++ "from typing import Optional" ++ nl ++ nl
  ++ "app = FastAPI(title='Generated API for " ++ remove "_api.py" filename ++ "')" ++ nl ++ nl
  ++ "HARDCODED_API_KEY = '" ++ dynamic_api_key ++ "'" ++ nl ++ nl
  ++ (if auth_required then gate_text else EmptyString)
  ++ String.concat EmptyString (map (route_text example_data auth_required) endpoints).

(** [sub] occurs in [s]. *)
Definition occurs (sub s : string) : Prop :=
  exists before after, s = before ++ sub ++ after.

(** The text [generate_api] has written for a request: the arguments of
    its call of [create_python_api_file]. *)
Definition generated_file_text (q : query) (rng : nat -> nat) : string :=
  let api_key := generate_api_key (app1 q) (app2 q) rng in
  let app1_clean := clean (app1 q) in
  let app2_clean := clean (app2 q) in
  let endpoints := ["/" ++ app1_clean ++ "to" ++ app2_clean;
                    "/" ++ app2_clean ++ "to" ++ app1_clean] in
  let example_data := example_data_items (fields q) in
  let filename := app1_clean ++ "_" ++ app2_clean ++ "_api.py" in
  api_file_text filename endpoints example_data (require_auth q) api_key.

End Emit.

(** ** More concrete data *)

Module Sample.

(** A disk with a file outside the working directory. *)
Definition root_disk (path : string) : option fsnode :=
  if String.eqb path "/etc/hostname" then Some (RegularFile "specforge-host")
  else if String.eqb path "/srv/x_b_api.py" then Some (RegularFile "from fastapi import FastAPI")
  else None.

(** A request whose first name begins with a slash. *)
Definition rooted : query := Query "/srv/X" "b" ["id"] true.

End Sample.

(** * Properties *)

(** ** The scenarios of the specification, evaluated *)

Example generate_api_key_whatsapp :
  generate_api_key "WhatsApp Swiggy" "Zomato" (fun i => i + 1) = "WHA-1234-ZOM".
Proof. reflexivity. Qed.

Example clean_whatsapp : clean "WhatsApp Swiggy" = "whatsappswiggy".
Proof. reflexivity. Qed.

(** The scenario [app1 = "WhatsApp Swiggy"], [app2 = "Zomato"],
    [fields = ["id"]], [require_auth = true] on a fresh process. *)
Example whatsapp_zomato_scenario :
  let s := run Scenario.no_patterns
             [Call (Query "WhatsApp Swiggy" "Zomato" ["id"] true) (fun i => i + 1)
                   Scenario.writable] in
  route_table s = [("/whatsappswiggytozomato", 2); ("/zomatotowhatsappswiggy", 2)]
  /\ written s = ["generated_apis/whatsappswiggy_zomato_api.py"]
  /\ live_get s "/whatsappswiggytozomato" None
     = HTTPException 401 "Invalid or missing X-API-Key header"
  /\ live_get s "/zomatotowhatsappswiggy" (Some "WHA-1234-ZOM")
     = JSONResponse (envelope_json ["id"]) 200
  /\ live_get s "/zomatotowhatsappswiggy/" (Some "WHA-1234-ZOM") = NoRoute
  /\ live_get s "/" None = FixedRoute
  /\ envelope_json ["id"]
     = JObj (<["status" := JStr "success"]> {["data" := JObj {["id" := JStr "sample_id"]}]}).
Proof. vm_compute. repeat split. Qed.

(** The histories of [Scenario] involve no path with a parameter: every
    framework leaves the same process behind. *)
Example scenarios_with_any_framework (fw : framework) (auth : bool) :
  run fw [Call (Scenario.ab_id auth) Scenario.zeros Scenario.writable;
          Call (Scenario.ab_name auth) Scenario.counting Scenario.writable]
  = Scenario.regenerated auth
  /\ run fw [Call (Scenario.ab_id auth) Scenario.zeros Scenario.writable;
             Call (Scenario.cd_name auth) Scenario.counting Scenario.writable]
     = Scenario.second_pair auth.
Proof. split; vm_compute; reflexivity. Qed.

Example page_form_scenario :
  Page.generateAPI " WhatsApp Swiggy " "Zomato" "id, ,name" "true"
  = Some (Query "WhatsApp Swiggy" "Zomato" ["id"; "name"] true).
Proof. reflexivity. Qed.

Example page_form_blank_fields :
  Page.generateAPI "a" "b" " , " "true" = None.
Proof. reflexivity. Qed.


(** ** Characters and strings *)

Section Characters.

Local Ltac by_cases_on c :=
  destruct c as [[] [] [] [] [] [] [] []]; vm_compute; try reflexivity; try discriminate.

Lemma lower_char_idem c : PyStr.lower_char (PyStr.lower_char c) = PyStr.lower_char c.
Proof. by_cases_on c. Qed.

Lemma lower_char_not_upper c : PyStr.isupper (PyStr.lower_char c) = false.
Proof. by_cases_on c. Qed.

Lemma upper_char_of_lower_char c :
  PyStr.upper_char (PyStr.lower_char c) = PyStr.upper_char c.
Proof. by_cases_on c. Qed.


Lemma lower_char_space c :
  Ascii.eqb (PyStr.lower_char c) " " = Ascii.eqb c " ".
Proof. by_cases_on c. Qed.

End Characters.

Lemma clean_cons c r :
  clean (String c r) =
  if Ascii.eqb c " " then clean r else String (PyStr.lower_char c) (clean r).
Proof. unfold clean. simpl. by rewrite lower_char_space. Qed.

Lemma clean_idem name : clean (clean name) = clean name.
Proof.
  induction name as [|c r IH]; [reflexivity|].
  rewrite clean_cons. destruct (Ascii.eqb c " ") eqn:Hc; [exact IH|].
  rewrite clean_cons, lower_char_space, Hc, lower_char_idem. by rewrite IH.
Qed.

Lemma clean_no_upper name : PyStr.any PyStr.isupper (clean name) = false.
Proof.
  induction name as [|c r IH]; [reflexivity|].
  rewrite clean_cons. destruct (Ascii.eqb c " "); [exact IH|].
  simpl. by rewrite lower_char_not_upper, IH.
Qed.

Lemma clean_no_space name : PyStr.any (fun c => Ascii.eqb c " ") (clean name) = false.
Proof.
  induction name as [|c r IH]; [reflexivity|].
  rewrite clean_cons. destruct (Ascii.eqb c " ") eqn:Hc; [exact IH|].
  simpl. by rewrite lower_char_space, Hc, IH.
Qed.

Lemma digit_index n :
  n < 10 -> exists c, PyStr.index n PyStr.digits = Some c /\ PyStr.isdigit c = true.
Proof.
  intros Hn.
  do 10 (destruct n as [|n]; [eexists; split; reflexivity|]). lia.
Qed.

Lemma choices_from_digits rng k : forall i,
  String.length (PyRandom.choices_from PyStr.digits rng i k) = k
  /\ PyStr.all PyStr.isdigit (PyRandom.choices_from PyStr.digits rng i k) = true.
Proof.
  induction k as [|k IH]; intros i; [by split|].
  cbn [PyRandom.choices_from].
  destruct (digit_index (rng i mod String.length PyStr.digits)) as (c & -> & Hc).
  { apply Nat.mod_upper_bound. discriminate. }
  destruct (IH (S i)) as [Hlen Hall]. cbn [String.length PyStr.all].
  by rewrite Hlen, Hc, Hall.
Qed.

(** ** The state one generation call leaves *)

Lemma lookup_app_length {A} (h : list A) x t : (h ++ x :: t)%list !! length h = Some x.
Proof. by rewrite lookup_app_r, Nat.sub_diag by lia. Qed.

Lemma add_endpoints_state fw h md ar cfg w endpoints : forall n rs,
  add_endpoints fw (length h) (Server (h ++ [OFunc md ar n]) cfg rs w) endpoints
  = (Server (h ++ [OFunc md ar (name_after fw n endpoints)]) cfg
            (rs ++ new_routes fw (length h) endpoints) w,
     all_accepted fw endpoints).
Proof.
  induction endpoints as [|endpoint rest IH]; intros n rs.
  - cbn [add_endpoints name_after new_routes all_accepted]. by rewrite app_nil_r.
  - cbn [add_endpoints name_after new_routes all_accepted].
    unfold set_route_name, add_api_route. cbn [heap MOCK_CONFIG routes written].
    rewrite lookup_app_length, insert_app_r_alt, Nat.sub_diag by lia.
    cbn [insert list_insert].
    destruct (compile_path fw endpoint) as [matcher|]; [|by rewrite app_nil_r].
    rewrite IH. by rewrite <- app_assoc.
Qed.

Lemma config_of_lookup q rng e k :
  config_of q rng e !! k =
  if decide (k = "endpoints") then Some (VStrList (endpoints_of q))
  else if decide (k = "example_data") then Some (VRef e)
  else if decide (k = "auth_required") then Some (VBool (require_auth q))
  else if decide (k = "api_key") then Some (VStr (generate_api_key (app1 q) (app2 q) rng))
  else None.
Proof.
  unfold config_of. rewrite !lookup_insert, lookup_empty.
  repeat case_decide; congruence.
Qed.

Lemma config_of_lookup_example_data q rng e cfg :
  (config_of q rng e ∪ cfg) !! "example_data" = Some (VRef e).
Proof. apply lookup_union_Some_l. by rewrite config_of_lookup. Qed.

(** ** Serialisation *)

Lemma dict_mapM_Some {A B} (f : A -> option B) (g : A -> B) (d : gmap string A) :
  (forall k a, d !! k = Some a -> f a = Some (g a)) ->
  dict_mapM f d = Some (g <$> d).
Proof.
  unfold dict_mapM.
  apply (map_fold_weak_ind
           (fun r m => (forall k a, m !! k = Some a -> f a = Some (g a)) -> r = Some (g <$> m))).
  - intros _. by rewrite fmap_empty.
  - intros i x m r Hi IH H.
    rewrite (H i x) by apply lookup_insert_eq.
    rewrite IH, fmap_insert; [done|].
    intros k a Hk. apply (H k). rewrite lookup_insert_ne; [done|]. congruence.
Qed.

Lemma sample_dict_json_from fs : forall acc : gmap string pyval,
  json_of_str <$> foldl (fun d f => <[f := VStr ("sample_" ++ f)]> d) acc fs
  = foldl (fun d f => <[f := JStr ("sample_" ++ f)]> d) (json_of_str <$> acc) fs.
Proof.
  induction fs as [|f fs IH]; intros acc; [reflexivity|].
  cbn [foldl]. by rewrite IH, fmap_insert.
Qed.

Lemma sample_dict_json fs : json_of_str <$> sample_dict fs = payload_template fs.
Proof. unfold sample_dict. by rewrite sample_dict_json_from, fmap_empty. Qed.

Lemma sample_dict_values fs : forall k v,
  sample_dict fs !! k = Some v -> v = VStr ("sample_" ++ k).
Proof.
  unfold sample_dict.
  assert (forall acc : gmap string pyval,
            (forall k v, acc !! k = Some v -> v = VStr ("sample_" ++ k)) ->
            forall k v, foldl (fun d f => <[f := VStr ("sample_" ++ f)]> d) acc fs !! k = Some v ->
                        v = VStr ("sample_" ++ k)) as H.
  { induction fs as [|f fs IH]; intros acc Hacc; [exact Hacc|].
    cbn [foldl]. apply IH. intros k v. rewrite lookup_insert.
    case_decide; [naive_solver|apply Hacc]. }
  apply H. intros k v. by rewrite lookup_empty.
Qed.

Lemma render_ref n h l :
  render (S n) h (VRef l) =
  match h !! l with
  | Some (ODict d) => JObj <$> dict_mapM (render n h) d
  | _ => None
  end.
Proof. reflexivity. Qed.

Lemma render_sample_dict n h l fs :
  h !! l = Some (ODict (sample_dict fs)) ->
  render (S (S n)) h (VRef l) = Some (JObj (payload_template fs)).
Proof.
  intros Hl. rewrite render_ref, Hl.
  rewrite (dict_mapM_Some _ json_of_str).
  - cbn. by rewrite sample_dict_json.
  - intros k a Ha. by rewrite (sample_dict_values _ _ _ Ha).
Qed.

Lemma dumps_sample_dict h l fs :
  h !! l = Some (ODict (sample_dict fs)) ->
  dumps h (VRef l) = Some (JObj (payload_template fs)).
Proof.
  intros Hl. unfold dumps. destruct h as [|o h]; [done|].
  cbn [length]. by apply render_sample_dict.
Qed.

Lemma render_envelope n h e l fs :
  h !! e = Some (ODict (envelope_of l)) ->
  h !! l = Some (ODict (sample_dict fs)) ->
  render (S (S (S n))) h (VRef e) = Some (envelope_json fs).
Proof.
  intros He Hl. rewrite render_ref, He.
  rewrite (dict_mapM_Some _ (fun v => default JNull (render (S (S n)) h v))).
  - unfold envelope_of, envelope_json. cbn [fmap option_fmap option_map].
    rewrite !fmap_insert, fmap_empty.
    rewrite (render_sample_dict n h l fs Hl). reflexivity.
  - intros k a. unfold envelope_of. rewrite !lookup_insert, lookup_empty.
    repeat case_decide; intros [= <-]; [|reflexivity].
    rewrite (render_sample_dict n h l fs Hl). reflexivity.
Qed.

Lemma dumps_envelope h l fs :
  h !! S l = Some (ODict (envelope_of l)) ->
  h !! l = Some (ODict (sample_dict fs)) ->
  dumps h (VRef (S l)) = Some (envelope_json fs).
Proof.
  intros He Hl. unfold dumps.
  destruct h as [|o [|o' h]]; [done..|].
  cbn [length]. by apply (render_envelope _ _ _ l).
Qed.

(** ** What one generation call returns and leaves behind *)

Lemma generated_heap_data fw q rng disk s :
  heap (generated_state fw q rng disk s) !! length (heap s)
  = Some (ODict (sample_dict (fields q))).
Proof. apply lookup_app_length. Qed.

Lemma generated_heap_envelope fw q rng disk s :
  heap (generated_state fw q rng disk s) !! S (length (heap s))
  = Some (ODict (envelope_of (length (heap s)))).
Proof.
  unfold generated_state. cbn [heap].
  rewrite lookup_app_r by lia. by replace (S (length (heap s)) - length (heap s)) with 1 by lia.
Qed.

Lemma generated_heap_handler fw q rng disk s :
  heap (generated_state fw q rng disk s) !! S (S (length (heap s)))
  = Some (OFunc (VRef (S (length (heap s)))) (require_auth q)
            (name_after fw None (endpoints_of q))).
Proof.
  unfold generated_state. cbn [heap].
  rewrite lookup_app_r by lia.
  by replace (S (S (length (heap s))) - length (heap s)) with 2 by lia.
Qed.

Lemma generated_heap_old fw q rng disk s l o :
  heap s !! l = Some o -> heap (generated_state fw q rng disk s) !! l = Some o.
Proof. intros H. unfold generated_state. cbn [heap]. by apply lookup_app_l_Some. Qed.

Lemma generated_heap_length fw q rng disk s :
  length (heap (generated_state fw q rng disk s)) = length (heap s) + 3.
Proof. unfold generated_state. cbn [heap]. by rewrite length_app. Qed.

Lemma generate_api_spec fw q rng disk s :
  generate_api fw q rng disk s =
  (generated_state fw q rng disk s,
   if succeeds fw q disk then Some (generated_result q rng) else None).
Proof.
  pose proof (generated_heap_data fw q rng disk s) as Hdata.
  destruct s as [h cfg rs w].
  unfold generate_api, create_mock_handler, alloc, create_python_api_file.
  cbn [heap MOCK_CONFIG routes written].
  change (<["endpoints":=_]> _)
    with (config_of q rng (length (h ++ [ODict (sample_dict (fields q))]))).
  rewrite config_of_lookup_example_data.
  assert (length (h ++ [ODict (sample_dict (fields q))]) = S (length h)) as ->
    by (rewrite length_app; cbn; lia).
  assert (length ((h ++ [ODict (sample_dict (fields q))]) ++
             [ODict (<["data":=VRef (length h)]> (<["status":=VStr "success"]> ∅))])
          = length (h ++ [ODict (sample_dict (fields q)); ODict (envelope_of (length h))]))
    as -> by (rewrite !length_app; cbn; lia).
  replace (((h ++ [ODict (sample_dict (fields q))]) ++
             [ODict (<["data":=VRef (length h)]> (<["status":=VStr "success"]> ∅))]) ++
             [OFunc (VRef (S (length h))) (require_auth q) None])%list
    with ((h ++ [ODict (sample_dict (fields q)); ODict (envelope_of (length h))]) ++
             [OFunc (VRef (S (length h))) (require_auth q) None])%list
    by (by rewrite <- !app_assoc).
  change ["/" ++ clean (app1 q) ++ "to" ++ clean (app2 q);
          "/" ++ clean (app2 q) ++ "to" ++ clean (app1 q)] with (endpoints_of q).
  rewrite add_endpoints_state.
  assert (length (h ++ [ODict (sample_dict (fields q)); ODict (envelope_of (length h))])
          = S (S (length h))) as -> by (rewrite length_app; cbn; lia).
  unfold generated_state, succeeds in *. cbn [heap MOCK_CONFIG routes written] in *.
  rewrite <- !app_assoc. cbn [app].
  destruct (all_accepted fw (endpoints_of q)); [|by rewrite app_nil_r].
  cbn [andb]. change (os_path_join "generated_apis" _) with (filepath_of q).
  destruct (disk (filepath_of q)); [|by rewrite app_nil_r].
  cbn [heap MOCK_CONFIG routes written].
  erewrite dumps_sample_dict; [reflexivity|exact Hdata].
Qed.

Lemma generate_api_state fw q rng disk s :
  fst (generate_api fw q rng disk s) = generated_state fw q rng disk s.
Proof. by rewrite generate_api_spec. Qed.

(** ** Reachable states *)

Lemma run_snoc fw calls c :
  run fw (calls ++ [c])
  = generated_state fw (call_query c) (call_rng c) (call_disk c) (run fw calls).
Proof. unfold run. rewrite foldl_app. cbn [foldl fst snd]. apply generate_api_state. Qed.

Lemma config_of_absorbs q rng e q' rng' e' :
  config_of q rng e ∪ config_of q' rng' e' = config_of q rng e.
Proof.
  apply map_eq. intros k. rewrite lookup_union, !config_of_lookup.
  repeat case_decide; reflexivity.
Qed.

Lemma run_config_shape fw calls :
  MOCK_CONFIG (run fw calls) = ∅
  \/ exists q rng e, MOCK_CONFIG (run fw calls) = config_of q rng e.
Proof.
  induction calls as [|c calls IH] using rev_ind; [by left|].
  right. exists (call_query c), (call_rng c), (S (length (heap (run fw calls)))).
  rewrite run_snoc. unfold generated_state. cbn [MOCK_CONFIG].
  destruct IH as [-> | (q' & rng' & e' & ->)].
  - apply (right_id_L ∅ (∪)).
  - apply config_of_absorbs.
Qed.

(** ** The generated configuration *)

(** C9. Every generation call fully replaces the mock configuration: after
    any history of calls, whatever the router and the file system did with
    them, the store bound to [MOCK_CONFIG] is exactly the four-key dict
    built from the latest call (credential, auth flag, reference to that
    call's envelope, that call's two paths), the envelope and payload
    objects it refers to are the ones built from that call's fields, and
    nothing of an earlier configuration remains.  The process has one
    store, so one configuration is live. *)
Theorem generation_replaces_configuration
    (fw : framework) (calls : list call) (q : query) (rng : nat -> nat)
    (disk : string -> bool) :
  let s := run fw calls in
  let s' := fst (generate_api fw q rng disk s) in
  let l := length (heap s) in
  MOCK_CONFIG s' = config_of q rng (S l)
  /\ heap s' !! S l = Some (ODict (envelope_of l))
  /\ heap s' !! l = Some (ODict (sample_dict (fields q)))
  /\ current_envelope s' = Some (envelope_json (fields q)).
Proof.
  intros s s' l. subst s s' l. rewrite generate_api_state.
  set (s := run fw calls).
  assert (MOCK_CONFIG (generated_state fw q rng disk s)
          = config_of q rng (S (length (heap s)))) as Hcfg.
  { unfold generated_state, s. cbn [MOCK_CONFIG].
    destruct (run_config_shape fw calls) as [-> | (q' & rng' & e' & ->)].
    - apply (right_id_L ∅ (∪)).
    - apply config_of_absorbs. }
  split_and!.
  - exact Hcfg.
  - apply (generated_heap_envelope fw q rng disk s).
  - apply (generated_heap_data fw q rng disk s).
  - unfold current_envelope. rewrite Hcfg, config_of_lookup. cbn.
    apply dumps_envelope.
    + apply (generated_heap_envelope fw q rng disk s).
    + apply (generated_heap_data fw q rng disk s).
Qed.

(** ** Success and failure of a generation call *)

Lemma compile_path_plain fw path :
  has_brace path = false -> compile_path fw path = Some (literal_match path).
Proof. unfold compile_path. by intros ->. Qed.

Lemma new_routes_plain fw f p1 p2 :
  has_brace p1 = false -> has_brace p2 = false ->
  new_routes fw f [p1; p2] = [Route p1 (literal_match p1) f; Route p2 (literal_match p2) f].
Proof. intros H1 H2. cbn [new_routes]. by rewrite !compile_path_plain. Qed.

Lemma all_accepted_plain fw p1 p2 :
  has_brace p1 = false -> has_brace p2 = false -> all_accepted fw [p1; p2] = true.
Proof. intros H1 H2. cbn [all_accepted]. by rewrite !compile_path_plain. Qed.

Lemma new_routes_paths fw f endpoints :
  (route_path <$> new_routes fw f endpoints) `prefix_of` endpoints.
Proof.
  induction endpoints as [|e rest IH]; [done|].
  cbn [new_routes]. destruct (compile_path fw e); [|apply prefix_nil].
  cbn [fmap list_fmap route_path]. by apply prefix_cons.
Qed.

Lemma new_routes_handler fw f endpoints :
  Forall (fun r => route_endpoint r = f) (new_routes fw f endpoints).
Proof.
  induction endpoints as [|e rest IH]; [constructor|].
  cbn [new_routes]. destruct (compile_path fw e); by constructor.
Qed.

Lemma succeeds_plain fw q disk :
  has_brace ("/" ++ clean (app1 q) ++ "to" ++ clean (app2 q)) = false ->
  has_brace ("/" ++ clean (app2 q) ++ "to" ++ clean (app1 q)) = false ->
  disk (filepath_of q) = true ->
  succeeds fw q disk = true.
Proof.
  intros H1 H2 Hd. unfold succeeds, endpoints_of.
  by rewrite all_accepted_plain, Hd.
Qed.

Lemma generate_api_returns fw q rng disk s r :
  snd (generate_api fw q rng disk s) = Some r -> r = generated_result q rng.
Proof.
  rewrite generate_api_spec. cbn [snd]. destruct (succeeds fw q disk); congruence.
Qed.

(** ** The route paths *)

(** C7. The two route paths of a generation call are ["/" + slug(app1) +
    "to" + slug(app2)] and ["/" + slug(app2) + "to" + slug(app1)], in that
    order: so they stand in the stored configuration after every call; the
    route entries the call appends carry these paths in this order (both
    of them when the router accepts both, as it does when they hold no
    brace; only those before the first it refuses otherwise); and the
    first is the [endpoint_example] of the answer whenever the call
    returns, as it does when both paths are accepted and the file is
    written. *)
Theorem generated_route_paths (fw : framework) (q : query) (rng : nat -> nat)
    (disk : string -> bool) (s : server) :
  let s' := fst (generate_api fw q rng disk s) in
  let f := S (S (length (heap s))) in
  let p1 := "/" ++ clean (app1 q) ++ "to" ++ clean (app2 q) in
  let p2 := "/" ++ clean (app2 q) ++ "to" ++ clean (app1 q) in
  MOCK_CONFIG s' !! "endpoints" = Some (VStrList [p1; p2])
  /\ (exists added, routes s' = (routes s ++ added)%list
                    /\ (route_path <$> added) `prefix_of` [p1; p2]
                    /\ Forall (fun r => route_endpoint r = f) added)
  /\ (has_brace p1 = false -> has_brace p2 = false ->
      routes s' = (routes s ++ [Route p1 (literal_match p1) f;
                                Route p2 (literal_match p2) f])%list)
  /\ (forall r, snd (generate_api fw q rng disk s) = Some r ->
                endpoint_example r = Some p1)
  /\ (has_brace p1 = false -> has_brace p2 = false -> disk (filepath_of q) = true ->
      endpoint_example <$> snd (generate_api fw q rng disk s) = Some (Some p1)).
Proof.
  intros s' f p1 p2. subst s'. rewrite generate_api_spec. cbn [fst snd].
  split_and!.
  - unfold generated_state. cbn [MOCK_CONFIG].
    apply lookup_union_Some_l. by rewrite config_of_lookup.
  - exists (new_routes fw f (endpoints_of q)). split_and!.
    + reflexivity.
    + apply new_routes_paths.
    + apply new_routes_handler.
  - intros H1 H2. unfold generated_state. cbn [routes].
    unfold endpoints_of. by rewrite new_routes_plain.
  - intros r. destruct (succeeds fw q disk); [|done]. by intros [= <-].
  - intros H1 H2 Hd. by rewrite succeeds_plain.
Qed.

Lemma generated_route_paths_witness :
  has_brace "/atob" = false /\ has_brace "/btoa" = false
  /\ Scenario.writable (filepath_of (Scenario.ab_id true)) = true
  /\ endpoint_example
       <$> snd (generate_api Scenario.no_patterns (Scenario.ab_id true) Scenario.zeros
                  Scenario.writable startup)
     = Some (Some "/atob").
Proof.
  split_and!; [reflexivity..|].
  apply (generated_route_paths Scenario.no_patterns (Scenario.ab_id true) Scenario.zeros
           Scenario.writable startup); reflexivity.
Defined.

(** ** The credential *)

(** C5, as stated, fails: for the names ["a b"] and ["c"] the slugs are
    ["ab"] and ["c"], yet the credential starts with ["A B"], the first
    three characters of the name as supplied. *)
Lemma credential_not_from_slugs :
  specforge_api_key
    <$> snd (generate_api Scenario.no_patterns Scenario.spaced Scenario.zeros
               Scenario.writable startup)
    = Some "A B-0000-C"
  /\ MOCK_CONFIG (fst (generate_api Scenario.no_patterns Scenario.spaced Scenario.zeros
                         Scenario.writable startup)) !! "api_key"
     = Some (VStr "A B-0000-C")
  /\ credential_from_slugs Scenario.spaced Scenario.zeros = "AB-0000-C"
  /\ specforge_api_key
       <$> snd (generate_api Scenario.no_patterns Scenario.spaced Scenario.zeros
                  Scenario.writable startup)
     <> Some (credential_from_slugs Scenario.spaced Scenario.zeros).
Proof. rewrite generate_api_spec. vm_compute. split_and!; [reflexivity..|discriminate]. Qed.

(** C5, amended. The credential is ["<AAA>-<DDDD>-<BBB>"] where [<AAA>] is
    the first three characters (fewer for a shorter name) of the first
    service name as supplied, before normalisation, upper-cased, [<DDDD>]
    is four decimal digits from the random source, and [<BBB>] likewise
    comes from the second service name as supplied.  It is the value every
    call stores in the configuration, and the value returned to the caller
    whenever the call returns (as it does when the router accepts both
    paths and the file is written).  For [app1 = "WhatsApp Swiggy"],
    [app2 = "Zomato"] it is [WHA-dddd-ZOM]. *)
Theorem credential_from_supplied_names :
  (forall (fw : framework) (q : query) (rng : nat -> nat) (disk : string -> bool)
          (s : server),
     exists dddd,
       let key := PyStr.upper (PyStr.prefix 3 (app1 q)) ++ "-" ++ dddd ++ "-"
                  ++ PyStr.upper (PyStr.prefix 3 (app2 q)) in
       String.length dddd = 4 /\ PyStr.all PyStr.isdigit dddd = true
       /\ MOCK_CONFIG (fst (generate_api fw q rng disk s)) !! "api_key" = Some (VStr key)
       /\ (forall r, snd (generate_api fw q rng disk s) = Some r ->
                     specforge_api_key r = key)
       /\ (has_brace ("/" ++ clean (app1 q) ++ "to" ++ clean (app2 q)) = false ->
           has_brace ("/" ++ clean (app2 q) ++ "to" ++ clean (app1 q)) = false ->
           disk (filepath_of q) = true ->
           specforge_api_key <$> snd (generate_api fw q rng disk s) = Some key))
  /\ (forall (fw : framework) (fs : list string) (auth : bool) (rng : nat -> nat)
             (disk : string -> bool) (s : server),
        exists dddd,
          String.length dddd = 4 /\ PyStr.all PyStr.isdigit dddd = true
          /\ MOCK_CONFIG (fst (generate_api fw (Query "WhatsApp Swiggy" "Zomato" fs auth)
                                 rng disk s)) !! "api_key"
             = Some (VStr ("WHA-" ++ dddd ++ "-ZOM"))
          /\ (disk "generated_apis/whatsappswiggy_zomato_api.py" = true ->
              specforge_api_key
                <$> snd (generate_api fw (Query "WhatsApp Swiggy" "Zomato" fs auth)
                           rng disk s)
              = Some ("WHA-" ++ dddd ++ "-ZOM"))).
Proof.
  split.
  - intros fw q rng disk s. exists (PyRandom.choices PyStr.digits 4 rng).
    destruct (choices_from_digits rng 4 0) as [Hlen Hall].
    rewrite generate_api_spec. cbn [fst snd].
    split_and!; [exact Hlen|exact Hall| | |].
    + unfold generated_state. cbn [MOCK_CONFIG].
      apply lookup_union_Some_l. by rewrite config_of_lookup.
    + intros r. destruct (succeeds fw q disk); [|done]. by intros [= <-].
    + intros H1 H2 Hd. by rewrite succeeds_plain.
  - intros fw fs auth rng disk s. exists (PyRandom.choices PyStr.digits 4 rng).
    destruct (choices_from_digits rng 4 0) as [Hlen Hall].
    rewrite generate_api_spec. cbn [fst snd].
    split_and!; [exact Hlen|exact Hall| |].
    + unfold generated_state. cbn [MOCK_CONFIG].
      apply lookup_union_Some_l. by rewrite config_of_lookup.
    + intros Hd. rewrite succeeds_plain; [reflexivity..|exact Hd].
Qed.

Lemma credential_from_supplied_names_witness :
  Scenario.writable "generated_apis/whatsappswiggy_zomato_api.py" = true
  /\ exists dddd,
       specforge_api_key
         <$> snd (generate_api Scenario.no_patterns (Query "WhatsApp Swiggy" "Zomato" ["id"] true)
                    Scenario.counting Scenario.writable startup)
       = Some ("WHA-" ++ dddd ++ "-ZOM").
Proof.
  split; [reflexivity|].
  destruct (proj2 credential_from_supplied_names Scenario.no_patterns ["id"] true
              Scenario.counting Scenario.writable startup) as (dddd & _ & _ & _ & H).
  exists dddd. apply H. reflexivity.
Defined.

(** ** The name normaliser *)

(** C6, as stated, fails: the [replace] call removes the space character
    only, so the slug of [a<TAB>b] still contains white space. *)
Lemma clean_keeps_tab :
  PyStr.any PyStr.whitespace (clean Scenario.tabbed_name) = true.
Proof. reflexivity. Qed.

Lemma clean_chars name :
  list_ascii_of_string (clean name)
  = PyStr.lower_char <$> filter (fun c => c <> " "%char) (list_ascii_of_string name).
Proof.
  induction name as [|c r IH]; [reflexivity|].
  rewrite clean_cons. cbn [list_ascii_of_string].
  destruct (Ascii.eqb_spec c " ") as [-> | Hc].
  - by rewrite filter_cons_False by (intros H; by apply H).
  - rewrite filter_cons_True by done. cbn [fmap list_fmap list_ascii_of_string].
    by rewrite IH.
Qed.

Section WhiteSpace.

Local Ltac by_cases_on c :=
  destruct c as [[] [] [] [] [] [] [] []]; vm_compute; try reflexivity; try discriminate.

Lemma lower_char_whitespace h c :
  PyStr.whitespace c = true ->
  Ascii.eqb (PyStr.lower_char h) c = Ascii.eqb h c.
Proof.
  intros Hw.
  destruct c as [[] [] [] [] [] [] [] []]; try discriminate Hw; clear Hw; by_cases_on h.
Qed.

End WhiteSpace.

Lemma clean_keeps_whitespace c name :
  PyStr.whitespace c = true -> c <> " "%char ->
  count_char c (clean name) = count_char c name.
Proof.
  intros Hw Hsp. induction name as [|h r IH]; [reflexivity|].
  rewrite clean_cons. destruct (Ascii.eqb_spec h " ") as [-> | Hh].
  - cbn [count_char]. destruct (Ascii.eqb_spec " " c) as [<- | _]; [done|]. by rewrite IH.
  - cbn [count_char]. by rewrite lower_char_whitespace, IH.
Qed.

(** C6, amended. The normaliser ([lower], then removal of spaces) is a
    function of the name alone and is idempotent; it lower-cases its
    input: no letter A-Z is left, and for an ASCII name the slug is made of
    the characters of the name other than the space, in their order, each
    lower-cased; it leaves no space character; every other white-space
    character (tab, line feed, ...) is kept, as often as it occurs in the
    name. *)
Theorem clean_idempotent_lower_spacefree (name : string) :
  clean (clean name) = clean name
  /\ PyStr.any PyStr.isupper (clean name) = false
  /\ PyStr.any (fun c => Ascii.eqb c " ") (clean name) = false
  /\ (isascii name = true ->
      list_ascii_of_string (clean name)
      = PyStr.lower_char <$> filter (fun c => c <> " "%char) (list_ascii_of_string name))
  /\ (forall c, PyStr.whitespace c = true -> c <> " "%char ->
                count_char c (clean name) = count_char c name).
Proof.
  split_and!; [apply clean_idem|apply clean_no_upper|apply clean_no_space| |].
  - intros _. apply clean_chars.
  - intros c. apply clean_keeps_whitespace.
Qed.

Lemma clean_idempotent_lower_spacefree_witness :
  isascii "Whats App" = true
  /\ list_ascii_of_string (clean "Whats App")
     = ["w"; "h"; "a"; "t"; "s"; "a"; "p"; "p"]%char
  /\ count_char "009" (clean Scenario.tabbed_name) = 1.
Proof.
  split; [reflexivity|]. split.
  - rewrite (proj1 (proj2 (proj2 (proj2 (clean_idempotent_lower_spacefree "Whats App")))))
      by reflexivity.
    reflexivity.
  - rewrite (proj2 (proj2 (proj2 (proj2 (clean_idempotent_lower_spacefree
                                            Scenario.tabbed_name)))) "009"%char)
      by (reflexivity || discriminate).
    reflexivity.
Defined.

(** ** The download endpoint *)

Example join_parent : os_path_join "generated_apis" "../main.py" = "generated_apis/../main.py".
Proof. reflexivity. Qed.

Example join_absolute : os_path_join "generated_apis" "/etc/passwd" = "/etc/passwd".
Proof. reflexivity. Qed.

Lemma download_api_found (stat : string -> option fsnode) (file content : string) :
  stat (os_path_join "generated_apis" file) = Some (RegularFile content) ->
  download_api stat file = FileResponse content file.
Proof. unfold download_api, os_path_exists, send_file. by intros ->. Qed.

(** C10. For every value of [file], the download endpoint consults the
    file system at [os.path.join("generated_apis", file)], unchanged: when
    a regular file is there it returns that file's bytes (also when the
    value has separators or [..] and so names a file outside the artifact
    directory), and it answers 404 exactly when nothing exists at that
    path. *)
Theorem download_serves_joined_path (stat : string -> option fsnode) (file : string) :
  let path := os_path_join "generated_apis" file in
  (forall content, stat path = Some (RegularFile content) ->
                   download_api stat file = FileResponse content file)
  /\ (download_api stat file = HTTPException 404 "File not found" <-> stat path = None).
Proof.
  intros path. unfold download_api, os_path_exists, send_file. fold path. split.
  - by intros content ->.
  - destruct (stat path) as [[content|]|]; split; done.
Qed.

Lemma download_serves_joined_path_witness :
  Scenario.disk (os_path_join "generated_apis" "../main.py") = Some (RegularFile "# specforge.py")
  /\ download_api Scenario.disk "../main.py" = FileResponse "# specforge.py" "../main.py".
Proof.
  split; [reflexivity|].
  apply (proj1 (download_serves_joined_path Scenario.disk "../main.py")). reflexivity.
Defined.

(** ** Validation *)

Lemma trimStart_head s :
  Page.trimStart s = EmptyString \/ exists c r, Page.trimStart s = String c r /\ PyStr.whitespace c = false.
Proof.
  induction s as [|c r IH]; [by left|].
  cbn [Page.trimStart]. destruct (PyStr.whitespace c) eqn:Hc; [exact IH|].
  right. by exists c, r.
Qed.

Lemma trimEnd_head c r :
  PyStr.whitespace c = false -> exists r', Page.trimEnd (String c r) = String c r'.
Proof.
  intros Hc. cbn [Page.trimEnd]. rewrite Hc.
  destruct (Page.trimEnd r); by eexists.
Qed.

Lemma trim_head s :
  Page.trim s = EmptyString \/ exists c r, Page.trim s = String c r /\ PyStr.whitespace c = false.
Proof.
  unfold Page.trim. destruct (trimStart_head s) as [-> | (c & r & -> & Hc)]; [by left|].
  right. destruct (trimEnd_head c r Hc) as [r' ->]. by exists c, r'.
Qed.







(** ** Route registration and dispatch *)

Lemma dispatch_app_Some rs rs' path f :
  dispatch rs path = Some f -> dispatch (rs ++ rs') path = Some f.
Proof.
  induction rs as [|r rs IH]; [done|].
  cbn [dispatch app]. destruct (route_matches r path); [done|exact IH].
Qed.


Lemma entries_for_app rs rs' path :
  entries_for (rs ++ rs') path = entries_for rs path + entries_for rs' path.
Proof. unfold entries_for. by rewrite filter_app, length_app. Qed.

Lemma entries_for_pair p1 m1 p2 m2 f path :
  entries_for [Route p1 m1 f; Route p2 m2 f] path
  = (if decide (p1 = path) then 1 else 0) + (if decide (p2 = path) then 1 else 0).
Proof.
  unfold entries_for.
  destruct (decide (p1 = path)) as [H1|H1], (decide (p2 = path)) as [H2|H2].
  - by rewrite !filter_cons_True.
  - rewrite filter_cons_True, filter_cons_False by done. reflexivity.
  - rewrite filter_cons_False, filter_cons_True by done. reflexivity.
  - rewrite !filter_cons_False by done. reflexivity.
Qed.

(** C2, as stated, fails: after two generations for the same names the
    router holds two entries for ["/atob"], and dispatch resolves the path
    to the handler of the first generation (address 2), not to the one
    registered last (address 5). *)
Lemma registration_not_idempotent :
  entries_for (routes (Scenario.regenerated true)) "/atob" = 2
  /\ dispatch (routes (Scenario.regenerated true)) "/atob" = Some 2
  /\ latest_handler (routes (Scenario.regenerated true)) "/atob" = Some 5
  /\ ~ registration_idempotent (Scenario.regenerated true) "/atob".
Proof.
  split_and!; try (vm_compute; reflexivity).
  unfold registration_idempotent. intros [H | H]; vm_compute in H; [lia|discriminate].
Qed.

(** C2, amended. Registration is append-only: a generation call removes no
    route entry and puts its own after the entries already present, so a
    request an earlier entry matches keeps being served by that earliest
    handler.  When the router accepts the two paths of the call, as it
    does when they hold no brace, the call appends two entries, one per
    path and both bound to the handler function the call created: every
    such call adds one entry to each of its paths, two to the path when
    both are the same. *)
Theorem registration_appends (fw : framework) (q : query) (rng : nat -> nat)
    (disk : string -> bool) (s : server) :
  let s' := fst (generate_api fw q rng disk s) in
  let f := S (S (length (heap s))) in
  let p1 := "/" ++ clean (app1 q) ++ "to" ++ clean (app2 q) in
  let p2 := "/" ++ clean (app2 q) ++ "to" ++ clean (app1 q) in
  routes s `prefix_of` routes s'
  /\ (forall path f0, dispatch (routes s) path = Some f0 ->
                      dispatch (routes s') path = Some f0)
  /\ (has_brace p1 = false -> has_brace p2 = false ->
      routes s' = (routes s ++ [Route p1 (literal_match p1) f;
                                Route p2 (literal_match p2) f])%list
      /\ forall path, entries_for (routes s') path
                      = entries_for (routes s) path
                        + (if decide (p1 = path) then 1 else 0)
                        + (if decide (p2 = path) then 1 else 0)).
Proof.
  intros s' f p1 p2. subst s'. rewrite generate_api_state.
  unfold generated_state. cbn [routes]. fold f. split_and!.
  - by apply prefix_app_r.
  - intros path f0. apply dispatch_app_Some.
  - intros H1 H2. unfold endpoints_of. rewrite new_routes_plain by done.
    split; [reflexivity|]. intros path.
    rewrite entries_for_app, entries_for_pair. apply Nat.add_assoc.
Qed.

Lemma registration_appends_witness :
  has_brace "/atob" = false /\ has_brace "/btoa" = false
  /\ dispatch (routes (run Scenario.no_patterns
                         [Call (Scenario.ab_id true) Scenario.zeros Scenario.writable]))
       "/atob" = Some 2
  /\ dispatch (routes (fst (generate_api Scenario.no_patterns (Scenario.ab_name true)
                              Scenario.counting Scenario.writable
                              (run Scenario.no_patterns
                                 [Call (Scenario.ab_id true) Scenario.zeros
                                       Scenario.writable])))) "/atob"
     = Some 2
  /\ entries_for (routes (fst (generate_api Scenario.no_patterns (Scenario.ab_name true)
                                 Scenario.counting Scenario.writable
                                 (run Scenario.no_patterns
                                    [Call (Scenario.ab_id true) Scenario.zeros
                                          Scenario.writable])))) "/atob"
     = 2.
Proof.
  assert (dispatch (routes (run Scenario.no_patterns
                              [Call (Scenario.ab_id true) Scenario.zeros Scenario.writable]))
            "/atob" = Some 2) as H by (vm_compute; reflexivity).
  split_and!; [reflexivity|reflexivity|exact H| |].
  - exact (proj1 (proj2 (registration_appends Scenario.no_patterns (Scenario.ab_name true)
                           Scenario.counting Scenario.writable
                           (run Scenario.no_patterns
                              [Call (Scenario.ab_id true) Scenario.zeros Scenario.writable])))
             "/atob" 2 H).
  - rewrite (proj2 (proj2 (proj2 (registration_appends Scenario.no_patterns (Scenario.ab_name true)
                           Scenario.counting Scenario.writable
                           (run Scenario.no_patterns
                              [Call (Scenario.ab_id true) Scenario.zeros Scenario.writable])))
                      eq_refl eq_refl) "/atob").
    vm_compute. reflexivity.
Defined.

(** ** Live calls after a generation *)

Lemma generate_api_key_nonempty a b rng : String.eqb (generate_api_key a b rng) EmptyString = false.
Proof.
  unfold generate_api_key. apply String.eqb_neq.
  destruct (PyStr.upper (PyStr.prefix 3 a)); discriminate.
Qed.

Lemma generated_config_lookup fw q rng disk s k v :
  config_of q rng (S (length (heap s))) !! k = Some v ->
  MOCK_CONFIG (generated_state fw q rng disk s) !! k = Some v.
Proof. intros H. unfold generated_state. cbn [MOCK_CONFIG]. by apply lookup_union_Some_l. Qed.

(** The guard after a generation reads the new credential and flag. *)
Lemma verify_after_generation fw q rng disk s hdr :
  verify_live_api_key (generated_state fw q rng disk s) hdr =
  if require_auth q then
    if header_falsy hdr || header_ne hdr (VStr (generate_api_key (app1 q) (app2 q) rng))
    then inl (HTTPException 401 "Invalid or missing X-API-Key header")
    else inr true
  else inr true.
Proof.
  unfold verify_live_api_key.
  rewrite (generated_config_lookup fw q rng disk s "auth_required" (VBool (require_auth q)))
    by (by rewrite config_of_lookup).
  rewrite (generated_config_lookup fw q rng disk s "api_key"
             (VStr (generate_api_key (app1 q) (app2 q) rng)))
    by (by rewrite config_of_lookup).
  cbn [truthy]. rewrite generate_api_key_nonempty. cbn [negb].
  by destruct (require_auth q).
Qed.

Lemma header_mismatch hdr key :
  hdr <> Some key -> header_falsy hdr || header_ne hdr (VStr key) = true.
Proof.
  destruct hdr as [k|]; [|done]. intros Hne. cbn [header_falsy header_ne].
  destruct (String.eqb k key) eqn:E; [|by rewrite orb_true_r].
  apply String.eqb_eq in E. congruence.
Qed.

Lemma header_match key :
  String.eqb key EmptyString = false ->
  header_falsy (Some key) || header_ne (Some key) (VStr key) = false.
Proof. intros H. cbn [header_falsy header_ne]. by rewrite H, String.eqb_refl. Qed.






(** With authentication required, any live route rejects a request whose
    header is absent or differs from the current credential, whichever
    generation registered the route. *)
Lemma live_get_rejects fw q rng disk s path hdr f md ar n :
  require_auth q = true ->
  is_fixed path = false ->
  dispatch (routes (generated_state fw q rng disk s)) path = Some f ->
  heap (generated_state fw q rng disk s) !! f = Some (OFunc md ar n) ->
  hdr <> Some (generate_api_key (app1 q) (app2 q) rng) ->
  live_get (generated_state fw q rng disk s) path hdr
  = HTTPException 401 "Invalid or missing X-API-Key header".
Proof.
  intros Hauth Hfix Hd Hf Hne. unfold live_get.
  by rewrite Hfix, Hd, Hf, verify_after_generation, Hauth, header_mismatch.
Qed.


Lemma dispatch_elem rs path f :
  dispatch rs path = Some f -> exists r, r ∈ rs /\ route_endpoint r = f.
Proof.
  induction rs as [|r rs IH]; [done|].
  cbn [dispatch]. destruct (route_matches r path) eqn:E.
  - intros [= <-]. exists r. split; [apply list_elem_of_here|reflexivity].
  - intros H. destruct (IH H) as (r' & Hr' & Hf). exists r'.
    split; [by apply list_elem_of_further|exact Hf].
Qed.

Lemma generated_routes_bound fw q rng disk s :
  routes_bound s -> routes_bound (generated_state fw q rng disk s).
Proof.
  unfold routes_bound. rewrite !Forall_forall. intros H r Hr.
  unfold generated_state in Hr. cbn [routes] in Hr.
  apply elem_of_app in Hr as [Hr|Hr].
  - destruct (H r Hr) as (md & ar & n & Hf). exists md, ar, n.
    by apply generated_heap_old.
  - pose proof (new_routes_handler fw (S (S (length (heap s)))) (endpoints_of q)) as Hall.
    rewrite Forall_forall in Hall. rewrite (Hall r Hr).
    do 3 eexists. apply generated_heap_handler.
Qed.

Lemma run_routes_bound fw calls : routes_bound (run fw calls).
Proof.
  induction calls as [|c calls IH] using rev_ind; [constructor|].
  rewrite run_snoc. by apply generated_routes_bound.
Qed.

(** After any history, a generation with [require_auth = true] makes every
    live route answer 401 to a request whose header is absent or differs
    from the new credential. *)
Lemma live_get_rejects_after_history fw calls q rng disk path hdr :
  require_auth q = true ->
  is_fixed path = false ->
  dispatch (routes (generated_state fw q rng disk (run fw calls))) path <> None ->
  hdr <> Some (generate_api_key (app1 q) (app2 q) rng) ->
  live_get (generated_state fw q rng disk (run fw calls)) path hdr
  = HTTPException 401 "Invalid or missing X-API-Key header".
Proof.
  intros Hauth Hfix Hlive Hne.
  destruct (dispatch (routes (generated_state fw q rng disk (run fw calls))) path)
    as [f|] eqn:Hd; [|done].
  pose proof (generated_routes_bound fw q rng disk _ (run_routes_bound fw calls)) as Hb.
  unfold routes_bound in Hb. rewrite Forall_forall in Hb.
  destruct (dispatch_elem _ _ _ Hd) as (r & Hr & <-).
  destruct (Hb _ Hr) as (md & ar & n & Hf).
  by eapply live_get_rejects.
Qed.

(** ** Which payload a live route serves *)

Lemma envelopes_differ : envelope_json ["id"] <> envelope_json ["name"].
Proof. vm_compute. discriminate. Qed.

(** C1 fails on the code. First [generate_api(a, b, fields=[id])], then
    [generate_api(c, d, fields=[name])]: the route ["/atob"] is still live
    and serves the envelope of the first generation, while the store holds
    the envelope of the second.  The same happens when the second
    generation uses the names [a], [b] again: the path resolves to the
    first handler, whose closure holds the first envelope. *)
Theorem stale_payload_after_second_generation :
  live_get (Scenario.second_pair false) "/atob" None = JSONResponse (envelope_json ["id"]) 200
  /\ current_envelope (Scenario.second_pair false) = Some (envelope_json ["name"])
  /\ live_get (Scenario.regenerated false) "/atob" None
     = JSONResponse (envelope_json ["id"]) 200
  /\ current_envelope (Scenario.regenerated false) = Some (envelope_json ["name"])
  /\ envelope_json ["id"] <> envelope_json ["name"].
Proof.
  split_and!; try (vm_compute; reflexivity). exact envelopes_differ.
Qed.

(** C4 fails on the code. Two generations for the names [a], [b] with
    [require_auth = true], fields [id] then [name]: the current credential
    is [A-1234-B]; a request to ["/atob"] carrying it is answered 200, but
    with the payload of the first generation instead of the current one.
    The rejections hold: no header, the old credential and a credential in
    another case are answered 401.  A route left by a generation for other
    names ([a], [b] before [c], [d]) behaves the same way: the current
    credential opens it and the old payload comes back. *)
Theorem correct_key_served_stale_payload :
  MOCK_CONFIG (Scenario.regenerated true) !! "api_key" = Some (VStr "A-1234-B")
  /\ live_get (Scenario.regenerated true) "/atob" (Some "A-1234-B")
     = JSONResponse (envelope_json ["id"]) 200
  /\ current_envelope (Scenario.regenerated true) = Some (envelope_json ["name"])
  /\ envelope_json ["id"] <> envelope_json ["name"]
  /\ live_get (Scenario.regenerated true) "/atob" None
     = HTTPException 401 "Invalid or missing X-API-Key header"
  /\ live_get (Scenario.regenerated true) "/atob" (Some "A-0000-B")
     = HTTPException 401 "Invalid or missing X-API-Key header"
  /\ live_get (Scenario.regenerated true) "/atob" (Some "a-1234-b")
     = HTTPException 401 "Invalid or missing X-API-Key header"
  /\ MOCK_CONFIG (Scenario.second_pair true) !! "api_key" = Some (VStr "C-1234-D")
  /\ live_get (Scenario.second_pair true) "/atob" (Some "C-1234-D")
     = JSONResponse (envelope_json ["id"]) 200
  /\ current_envelope (Scenario.second_pair true) = Some (envelope_json ["name"]).
Proof.
  split_and!; try (vm_compute; reflexivity). exact envelopes_differ.
Qed.

(** C8 fails on the code. Two generations for the names [a], [b] with
    [require_auth = false], fields [id] then [name]: both generated routes
    answer 200 whatever the header, but with [{"id": "sample_id"}], the
    payload of the first generation, not with the placeholder of the
    supplied field [name].  A route left by a generation for other names
    does the same. *)
Theorem open_route_served_stale_payload :
  live_get (Scenario.regenerated false) "/btoa" (Some "anything")
  = JSONResponse (envelope_json ["id"]) 200
  /\ live_get (Scenario.regenerated false) "/btoa" None
     = JSONResponse (envelope_json ["id"]) 200
  /\ live_get (Scenario.regenerated false) "/atob" (Some "A-1234-B")
     = JSONResponse (envelope_json ["id"]) 200
  /\ MOCK_CONFIG (Scenario.regenerated false) !! "auth_required" = Some (VBool false)
  /\ current_envelope (Scenario.regenerated false) = Some (envelope_json ["name"])
  /\ payload_template ["name"] !! "name" = Some (JStr "sample_name")
  /\ payload_template ["id"] !! "name" = None
  /\ live_get (Scenario.second_pair false) "/btoa" (Some "anything")
     = JSONResponse (envelope_json ["id"]) 200.
Proof. split_and!; vm_compute; reflexivity. Qed.

(** * Further properties of the live mock *)

(** ** Which generation a live route answers for *)












(** ** What the guard decides *)

Lemma header_verdict hdr key :
  String.eqb key EmptyString = false ->
  header_falsy hdr || header_ne hdr (VStr key) = negb (bool_decide (hdr = Some key)).
Proof.
  intros Hkey. destruct (decide (hdr = Some key)) as [->|Hne].
  - rewrite header_match by done. by rewrite bool_decide_eq_true_2.
  - rewrite header_mismatch by done. by rewrite bool_decide_eq_false_2.
Qed.

Lemma guard_latest fw calls hdr :
  verify_live_api_key (run fw calls) hdr =
  match last calls with
  | None => inr true
  | Some c =>
      if require_auth (call_query c)
         && negb (bool_decide
                    (hdr = Some (generate_api_key (app1 (call_query c)) (app2 (call_query c))
                                   (call_rng c))))
      then inl unauthorized
      else inr true
  end.
Proof.
  destruct calls as [|c calls _] using rev_ind; [reflexivity|].
  rewrite last_snoc, run_snoc, verify_after_generation.
  rewrite header_verdict by apply generate_api_key_nonempty.
  by destruct (require_auth (call_query c)), (bool_decide _).
Qed.

(** X2. The verdict of the guard depends on the latest generation call
    only, whether that call returned or failed: before any call, and after
    a call with [require_auth = false], every request is permitted; after
    a call with [require_auth = true] a request is permitted exactly when
    its [X-API-Key] header is present and equal to the credential of that
    call, and is answered 401 otherwise. *)
Theorem guard_follows_latest_call
    (fw : framework) (calls : list call) (hdr : option string) :
  verify_live_api_key (run fw calls) hdr =
  match last calls with
  | None => inr true
  | Some c =>
      if require_auth (call_query c)
         && negb (bool_decide
                    (hdr = Some (generate_api_key (app1 (call_query c)) (app2 (call_query c))
                                   (call_rng c))))
      then inl unauthorized
      else inr true
  end.
Proof. apply guard_latest. Qed.




(** ** The process only grows *)

Lemma run_app_snoc fw calls more c :
  run fw (calls ++ more ++ [c])
  = generated_state fw (call_query c) (call_rng c) (call_disk c) (run fw (calls ++ more)).
Proof. by rewrite app_assoc, run_snoc. Qed.

(** X5. Generation calls only append, whether they return or fail: the
    heap and the route table of an earlier moment are prefixes of those of
    any later moment, so no object a handler refers to is ever changed or
    freed and no route is ever removed or re-bound. *)
Theorem process_only_grows (fw : framework) (calls more : list call) :
  heap (run fw calls) `prefix_of` heap (run fw (calls ++ more))
  /\ routes (run fw calls) `prefix_of` routes (run fw (calls ++ more)).
Proof.
  induction more as [|c more [IHh IHr]] using rev_ind.
  - by rewrite app_nil_r.
  - rewrite run_app_snoc. unfold generated_state. cbn [heap routes]. split.
    + by apply prefix_app_r.
    + by apply prefix_app_r.
Qed.

Lemma new_routes_length fw f endpoints :
  length (new_routes fw f endpoints) <= length endpoints.
Proof.
  induction endpoints as [|e rest IH]; [done|].
  cbn [new_routes]. destruct (compile_path fw e); cbn [length]; lia.
Qed.

Lemma new_routes_all_accepted fw f endpoints :
  all_accepted fw endpoints = true ->
  length (new_routes fw f endpoints) = length endpoints.
Proof.
  induction endpoints as [|e rest IH]; [done|].
  cbn [new_routes all_accepted]. destruct (compile_path fw e); [|done].
  intros H. cbn [length]. by rewrite IH.
Qed.

Lemma run_heap_length fw calls : length (heap (run fw calls)) = 3 * length calls.
Proof.
  induction calls as [|c calls IH] using rev_ind; [reflexivity|].
  rewrite run_snoc, generated_heap_length, IH, length_app. cbn [length]. lia.
Qed.

Lemma run_routes fw calls :
  routes (run fw calls) = concat (imap (entries_of_call fw) calls).
Proof.
  induction calls as [|c calls IH] using rev_ind; [reflexivity|].
  rewrite run_snoc. unfold generated_state. cbn [routes].
  rewrite IH, run_heap_length, imap_app, concat_app.
  cbn [imap concat]. rewrite app_nil_r. unfold entries_of_call at 3.
  by replace (3 * (length calls + 0) + 2) with (S (S (3 * length calls))) by lia.
Qed.

Lemma run_written fw calls :
  written (run fw calls) = concat (written_by fw <$> calls).
Proof.
  induction calls as [|c calls IH] using rev_ind; [reflexivity|].
  rewrite run_snoc. unfold generated_state. cbn [written].
  rewrite IH, fmap_app, concat_app. cbn [fmap list_fmap concat].
  by rewrite app_nil_r.
Qed.

Lemma run_lengths fw calls :
  length (routes (run fw calls)) <= 2 * length calls
  /\ length (written (run fw calls)) <= length calls.
Proof.
  induction calls as [|c calls [IHr IHw]] using rev_ind; [by cbn|].
  rewrite run_snoc. unfold generated_state. cbn [routes written].
  rewrite !length_app. cbn [length].
  pose proof (new_routes_length fw (S (S (length (heap (run fw calls)))))
                (endpoints_of (call_query c))) as Hnew.
  cbn [endpoints_of length] in Hnew.
  split; [lia|].
  destruct (succeeds fw (call_query c) (call_disk c)); cbn [length]; lia.
Qed.

Lemma run_all_succeed fw calls :
  Forall (fun c => succeeds fw (call_query c) (call_disk c) = true) calls ->
  length (routes (run fw calls)) = 2 * length calls
  /\ written (run fw calls) = (fun c => filepath_of (call_query c)) <$> calls.
Proof.
  induction calls as [|c calls IH] using rev_ind; [done|].
  intros Hall. apply Forall_app in Hall as [Hall Hc].
  rewrite Forall_singleton in Hc. destruct (IH Hall) as [IHl IHw].
  rewrite run_snoc. unfold generated_state. cbn [routes written].
  rewrite Hc, IHw, fmap_app, !length_app, IHl. split; [|reflexivity].
  rewrite new_routes_all_accepted.
  - cbn [endpoints_of length]. lia.
  - unfold succeeds in Hc. by apply andb_true_iff in Hc as [Hc _].
Qed.

(** X6. After [n] generation calls, returned or failed, the heap holds
    [3 * n] objects; the route table lists, in call order, the entries of
    every call for the endpoints the router accepted, bound to that call's
    handler (the third object of the call); the files written are, in call
    order, those of the calls that got as far as writing.  So there are at
    most [2 * n] entries and [n] files, and exactly as many, duplicates
    included, when every call returned. *)
Theorem route_table_after_history (fw : framework) (calls : list call) :
  length (heap (run fw calls)) = 3 * length calls
  /\ routes (run fw calls) = concat (imap (entries_of_call fw) calls)
  /\ written (run fw calls) = concat (written_by fw <$> calls)
  /\ length (routes (run fw calls)) <= 2 * length calls
  /\ length (written (run fw calls)) <= length calls
  /\ (Forall (fun c => succeeds fw (call_query c) (call_disk c) = true) calls ->
      length (routes (run fw calls)) = 2 * length calls
      /\ written (run fw calls) = (fun c => filepath_of (call_query c)) <$> calls).
Proof.
  split_and!.
  - apply run_heap_length.
  - apply run_routes.
  - apply run_written.
  - apply run_lengths.
  - apply run_lengths.
  - apply run_all_succeed.
Qed.

Lemma route_table_after_history_witness :
  Forall (fun c => succeeds Scenario.no_patterns (call_query c) (call_disk c) = true)
    [Call (Scenario.ab_id true) Scenario.zeros Scenario.writable;
     Call (Scenario.ab_name true) Scenario.counting Scenario.writable]
  /\ length (routes (Scenario.regenerated true)) = 4
  /\ written (Scenario.regenerated true)
     = ["generated_apis/a_b_api.py"; "generated_apis/a_b_api.py"].
Proof.
  assert (Forall (fun c => succeeds Scenario.no_patterns (call_query c) (call_disk c) = true)
            [Call (Scenario.ab_id true) Scenario.zeros Scenario.writable;
             Call (Scenario.ab_name true) Scenario.counting Scenario.writable]) as H
    by (repeat constructor).
  split; [exact H|].
  exact (proj2 (proj2 (proj2 (proj2 (proj2
           (route_table_after_history Scenario.no_patterns
              [Call (Scenario.ab_id true) Scenario.zeros Scenario.writable;
               Call (Scenario.ab_name true) Scenario.counting Scenario.writable])))))
           H).
Defined.

(** ** Slugs and credentials *)

Section MoreCharacters.

Local Ltac by_cases_on c :=
  destruct c as [[] [] [] [] [] [] [] []]; vm_compute; try reflexivity; try discriminate.

Lemma lower_char_of_upper_char c :
  PyStr.lower_char (PyStr.upper_char c) = PyStr.lower_char c.
Proof. by_cases_on c. Qed.

Lemma upper_char_space c : Ascii.eqb (PyStr.upper_char c) " " = Ascii.eqb c " ".
Proof. by_cases_on c. Qed.

Lemma upper_char_not_lower c : islower (PyStr.upper_char c) = false.
Proof. by_cases_on c. Qed.

Lemma digit_not_lower c : PyStr.isdigit c = true -> islower c = false.
Proof. by_cases_on c. Qed.

End MoreCharacters.

Lemma clean_app a b : clean (a ++ b) = clean a ++ clean b.
Proof.
  induction a as [|c a IH]; [reflexivity|].
  change (String c a ++ b) with (String c (a ++ b)). rewrite !clean_cons.
  destruct (Ascii.eqb c " "); [exact IH|]. by rewrite IH.
Qed.

Lemma clean_upper s : clean (PyStr.upper s) = clean s.
Proof.
  induction s as [|c s IH]; [reflexivity|].
  cbn [PyStr.upper]. rewrite !clean_cons, upper_char_space, lower_char_of_upper_char.
  by rewrite IH.
Qed.

(** X7. For ASCII names the slug ignores case and spaces and is taken
    piece by piece: the slug of a concatenation is the concatenation of the
    slugs, upper-casing a name or putting spaces into it does not change
    its slug, and so two requests whose ASCII names differ only in case or
    spaces get the same two route paths. *)
Theorem slug_ignores_case_and_spaces (a b : string) :
  isascii a = true -> isascii b = true ->
  clean (a ++ b) = clean a ++ clean b
  /\ clean (PyStr.upper a) = clean a
  /\ clean (a ++ " " ++ b) = clean (a ++ b)
  /\ (forall fs fs' auth auth',
        endpoints_of (Query (PyStr.upper a) (a ++ " " ++ b) fs auth)
        = endpoints_of (Query a (a ++ b) fs' auth')).
Proof.
  intros _ _.
  assert (clean (a ++ " " ++ b) = clean (a ++ b)) as Hsp by (by rewrite !clean_app).
  split_and!; [apply clean_app|apply clean_upper|exact Hsp|].
  intros fs fs' auth auth'. unfold endpoints_of. cbn [app1 app2].
  by rewrite clean_upper, Hsp.
Qed.

Lemma slug_ignores_case_and_spaces_witness :
  isascii "Whats" = true /\ isascii "App" = true
  /\ clean ("Whats" ++ " " ++ "App") = clean ("Whats" ++ "App")
  /\ clean (PyStr.upper "Whats") = "whats".
Proof.
  split; [reflexivity|]. split; [reflexivity|].
  destruct (slug_ignores_case_and_spaces "Whats" "App" eq_refl eq_refl)
    as (_ & Hup & Hsp & _).
  split; [exact Hsp|]. rewrite Hup. reflexivity.
Defined.

Lemma string_length_app a b : String.length (a ++ b) = String.length a + String.length b.
Proof.
  induction a as [|c a IH]; [reflexivity|].
  change (String c a ++ b) with (String c (a ++ b)). cbn [String.length]. by rewrite IH.
Qed.

Lemma upper_length s : String.length (PyStr.upper s) = String.length s.
Proof. induction s as [|c s IH]; [reflexivity|]. cbn. by rewrite IH. Qed.

Lemma prefix_length n s : String.length (PyStr.prefix n s) = min n (String.length s).
Proof.
  revert s. induction n as [|n IH]; intros [|c s]; try reflexivity.
  cbn. by rewrite IH.
Qed.

Lemma any_app p a b : PyStr.any p (a ++ b) = PyStr.any p a || PyStr.any p b.
Proof.
  induction a as [|c a IH]; [reflexivity|].
  change (String c a ++ b) with (String c (a ++ b)). cbn [PyStr.any].
  by rewrite IH, orb_assoc.
Qed.

Lemma upper_no_lower s : PyStr.any islower (PyStr.upper s) = false.
Proof.
  induction s as [|c s IH]; [reflexivity|]. cbn. by rewrite upper_char_not_lower, IH.
Qed.

Lemma digits_no_lower s : PyStr.all PyStr.isdigit s = true -> PyStr.any islower s = false.
Proof.
  induction s as [|c s IH]; [reflexivity|]. cbn.
  intros [Hc Hs]%andb_prop. by rewrite (digit_not_lower c Hc), IH.
Qed.

(** X8. The credential of two ASCII names is never empty and has no
    lower-case letter; its length is the number of characters taken from
    the two names (at most three each) plus six, so between 6 and 12, and
    names shorter than three characters give a shorter credential instead
    of a padded one. *)
Theorem credential_length_and_case (a b : string) (rng : nat -> nat) :
  isascii a = true -> isascii b = true ->
  String.length (generate_api_key a b rng)
  = min 3 (String.length a) + 6 + min 3 (String.length b)
  /\ 6 <= String.length (generate_api_key a b rng) <= 12
  /\ PyStr.any islower (generate_api_key a b rng) = false
  /\ generate_api_key a b rng <> EmptyString.
Proof.
  intros _ _.
  assert (String.length (generate_api_key a b rng)
          = min 3 (String.length a) + 6 + min 3 (String.length b)) as Hlen.
  { unfold generate_api_key, PyRandom.choices.
    rewrite !string_length_app, !upper_length, !prefix_length.
    destruct (choices_from_digits rng 4 0) as [-> _]. cbn [String.length]. lia. }
  split_and!; [exact Hlen|lia|lia| |].
  - unfold generate_api_key, PyRandom.choices.
    destruct (choices_from_digits rng 4 0) as [_ Hd].
    rewrite !any_app, !upper_no_lower, (digits_no_lower _ Hd). reflexivity.
  - intros H. rewrite H in Hlen. cbn in Hlen. lia.
Qed.

Lemma credential_length_and_case_witness :
  isascii "ab" = true /\ isascii "Zomato" = true
  /\ String.length (generate_api_key "ab" "Zomato" Scenario.counting) = 11.
Proof.
  split; [reflexivity|]. split; [reflexivity|].
  rewrite (proj1 (credential_length_and_case "ab" "Zomato" Scenario.counting
                    eq_refl eq_refl)).
  reflexivity.
Defined.

(** ** The payload *)

Lemma sample_dict_lookup_from fs k : forall acc : gmap string pyval,
  foldl (fun d f => <[f := VStr ("sample_" ++ f)]> d) acc fs !! k
  = if bool_decide (k ∈ fs) then Some (VStr ("sample_" ++ k)) else acc !! k.
Proof.
  induction fs as [|f fs IH]; intros acc; [reflexivity|].
  cbn [foldl]. rewrite IH.
  destruct (decide (k ∈ fs)) as [Hin|Hnin].
  - rewrite !bool_decide_eq_true_2; [done| |done]. by apply list_elem_of_further.
  - rewrite (bool_decide_eq_false_2 (k ∈ fs)) by done.
    destruct (decide (f = k)) as [->|Hne].
    + rewrite bool_decide_eq_true_2 by apply list_elem_of_here.
      apply lookup_insert_eq.
    + rewrite lookup_insert_ne by done.
      rewrite bool_decide_eq_false_2; [done|].
      intros [->|?]%elem_of_cons; done.
Qed.

Lemma sample_dict_lookup fs k :
  sample_dict fs !! k
  = if bool_decide (k ∈ fs) then Some (VStr ("sample_" ++ k)) else None.
Proof. unfold sample_dict. by rewrite sample_dict_lookup_from, lookup_empty. Qed.

(** X9. The payload has one entry per distinct supplied field name and no
    other: looking up [k] gives ["sample_" + k] when [k] is among the
    fields and nothing otherwise, so a repeated name collapses to one entry
    and an empty field list gives the empty payload.  Every generation
    call puts this mapping on the heap, and it is the [example_data] of the
    answer whenever the call returns, as it does when the router accepts
    both paths (they hold no brace) and the file is written. *)
Theorem payload_lookup (fs : list string) (k : string) :
  sample_dict fs !! k
  = (if bool_decide (k ∈ fs) then Some (VStr ("sample_" ++ k)) else None)
  /\ payload_template fs !! k
     = (if bool_decide (k ∈ fs) then Some (JStr ("sample_" ++ k)) else None)
  /\ (forall fw name1 name2 auth rng disk s,
        let q := Query name1 name2 fs auth in
        heap (fst (generate_api fw q rng disk s)) !! length (heap s)
        = Some (ODict (sample_dict fs))
        /\ (forall r, snd (generate_api fw q rng disk s) = Some r ->
                      example_data r = JObj (payload_template fs))
        /\ (has_brace ("/" ++ clean name1 ++ "to" ++ clean name2) = false ->
            has_brace ("/" ++ clean name2 ++ "to" ++ clean name1) = false ->
            disk (filepath_of q) = true ->
            example_data <$> snd (generate_api fw q rng disk s)
            = Some (JObj (payload_template fs)))).
Proof.
  pose proof (sample_dict_lookup fs k) as H.
  split_and!; [exact H| |].
  - rewrite <- sample_dict_json, lookup_fmap, H. by destruct (bool_decide _).
  - intros fw name1 name2 auth rng disk s q. rewrite generate_api_spec. cbn [fst snd].
    split_and!.
    + apply (generated_heap_data fw q rng disk s).
    + intros r. destruct (succeeds fw q disk); [|done]. by intros [= <-].
    + intros H1 H2 Hd. by rewrite succeeds_plain.
Qed.

Lemma payload_lookup_witness :
  has_brace "/atob" = false /\ has_brace "/btoa" = false
  /\ Scenario.writable (filepath_of (Query "a" "b" ["id"; "id"] true)) = true
  /\ example_data
       <$> snd (generate_api Scenario.no_patterns (Query "a" "b" ["id"; "id"] true)
                  Scenario.zeros Scenario.writable startup)
     = Some (JObj (payload_template ["id"; "id"])).
Proof.
  split_and!; [reflexivity..|].
  apply (proj2 (proj2 (payload_lookup ["id"; "id"] "id")) Scenario.no_patterns "a" "b" true
           Scenario.zeros Scenario.writable startup); reflexivity.
Defined.

(** ** The payload in insertion order *)

Lemma odict_set_absent k v d :
  k ∉ d.*1 -> Emit.odict_set k v d = (d ++ [(k, v)])%list.
Proof.
  induction d as [|[k' v'] d IH]; [done|].
  cbn [fmap list_fmap fst]. intros [Hne Hnin]%not_elem_of_cons.
  cbn [Emit.odict_set app]. destruct (String.eqb k' k) eqn:E.
  - apply String.eqb_eq in E. congruence.
  - by rewrite IH.
Qed.

Lemma odict_set_same k d :
  Forall (fun kv => kv.2 = "sample_" ++ kv.1) d -> k ∈ d.*1 ->
  Emit.odict_set k ("sample_" ++ k) d = d.
Proof.
  induction d as [|[k' v'] d IH]; [by intros _ ?%elem_of_nil|].
  intros [Hv Hd]%Forall_cons. cbn [fmap list_fmap fst]. intros Hin.
  cbn [Emit.odict_set]. cbn in Hv. destruct (String.eqb k' k) eqn:E.
  - apply String.eqb_eq in E. by subst.
  - apply String.eqb_neq in E. apply elem_of_cons in Hin as [->|Hin]; [done|].
    by rewrite IH.
Qed.

Lemma example_data_items_snoc_set fs f :
  Emit.example_data_items (fs ++ [f])
  = Emit.odict_set f ("sample_" ++ f) (Emit.example_data_items fs).
Proof. unfold Emit.example_data_items. by rewrite foldl_app. Qed.

Lemma example_data_items_inv fs :
  Forall (fun kv => kv.2 = "sample_" ++ kv.1) (Emit.example_data_items fs)
  /\ (forall k, k ∈ (Emit.example_data_items fs).*1 <-> k ∈ fs)
  /\ NoDup (Emit.example_data_items fs).*1.
Proof.
  induction fs as [|f fs (IHv & IHk & IHn)] using rev_ind.
  - split_and!; [constructor|done|constructor].
  - rewrite example_data_items_snoc_set. destruct (decide (f ∈ fs)) as [Hin|Hnin].
    + rewrite odict_set_same by (by try apply IHk). split_and!; [done| |done].
      intros k. rewrite IHk, elem_of_app, list_elem_of_singleton.
      split; [tauto|]. by intros [?| ->].
    + rewrite odict_set_absent by (by rewrite IHk). split_and!.
      * apply Forall_app. split; [done|]. by constructor.
      * intros k. rewrite fmap_app, !elem_of_app, IHk. done.
      * rewrite fmap_app. apply NoDup_app. split_and!; [done| |apply NoDup_singleton].
        intros k Hk [= ->]%list_elem_of_singleton. by apply Hnin, IHk.
Qed.

(** X10. In insertion order the payload dict lists every distinct field
    name once, at the place of its first occurrence: a name seen before
    leaves the dict as it is, a new name is added at the end with the value
    ["sample_" + name].  Read as a mapping it is the payload the live
    routes serve. *)
Theorem example_data_in_insertion_order (fs : list string) :
  NoDup (Emit.example_data_items fs).*1
  /\ (forall k v, (k, v) ∈ Emit.example_data_items fs <-> k ∈ fs /\ v = "sample_" ++ k)
  /\ (forall f, Emit.example_data_items (fs ++ [f])
                = if bool_decide (f ∈ fs) then Emit.example_data_items fs
                  else (Emit.example_data_items fs ++ [(f, ("sample_" ++ f)%string)])%list)
  /\ VStr <$> (list_to_map (Emit.example_data_items fs) : gmap string string)
     = sample_dict fs.
Proof.
  destruct (example_data_items_inv fs) as (Hv & Hk & Hn).
  assert (forall k v, (k, v) ∈ Emit.example_data_items fs <-> k ∈ fs /\ v = "sample_" ++ k)
    as Hmem.
  { intros k v. split.
    - intros Hin. split.
      + apply Hk. apply list_elem_of_fmap. by exists (k, v).
      + rewrite Forall_forall in Hv. apply (Hv _ Hin).
    - intros [Hin ->]. apply Hk, list_elem_of_fmap in Hin as ([k' v'] & -> & Hin).
      rewrite Forall_forall in Hv. by rewrite <- (Hv _ Hin). }
  split_and!; [exact Hn|exact Hmem| |].
  - intros f. rewrite example_data_items_snoc_set. case_bool_decide as Hf.
    + apply odict_set_same; [done|]. by apply Hk.
    + apply odict_set_absent. by rewrite Hk.
  - apply map_eq. intros k. rewrite lookup_fmap.
    rewrite sample_dict_lookup. case_bool_decide as Hin.
    + assert ((k, "sample_" ++ k) ∈ Emit.example_data_items fs) as Hel by (by apply Hmem).
      apply (elem_of_list_to_map_1 (M := gmap string)) in Hel; [|done].
      by rewrite Hel.
    + rewrite (not_elem_of_list_to_map_1 (M := gmap string)); [done|]. by rewrite Hk.
Qed.

Lemma example_data_in_insertion_order_witness :
  "id" ∈ ["id"; "name"; "id"]
  /\ ("id", "sample_id") ∈ Emit.example_data_items ["id"; "name"; "id"]
  /\ Emit.example_data_items ["id"; "name"; "id"]
     = [("id", "sample_id"); ("name", "sample_name")].
Proof.
  assert ("id" ∈ ["id"; "name"; "id"]) as H by apply list_elem_of_here.
  split; [exact H|]. split; [|reflexivity].
  apply (proj1 (proj2 (example_data_in_insertion_order ["id"; "name"; "id"]))).
  split; [exact H|reflexivity].
Defined.

(** ** The emitted text *)

Lemma string_app_assoc a b c : (a ++ b) ++ c = a ++ b ++ c.
Proof.
  induction a as [|x a IH]; [reflexivity|].
  change (((String x a ++ b) ++ c) = String x a ++ b ++ c)
    with (String x ((a ++ b) ++ c) = String x (a ++ b ++ c)).
  by rewrite IH.
Qed.

Lemma string_app_nil_r a : a ++ EmptyString = a.
Proof.
  induction a as [|x a IH]; [reflexivity|].
  change (String x a ++ EmptyString) with (String x (a ++ EmptyString)). by rewrite IH.
Qed.

Lemma occurs_here sub t : Emit.occurs sub (sub ++ t).
Proof. by exists EmptyString, t. Qed.

Lemma occurs_app_r sub s t : Emit.occurs sub t -> Emit.occurs sub (s ++ t).
Proof. intros (b & a & ->). exists (s ++ b), a. by rewrite string_app_assoc. Qed.

Lemma occurs_app_l sub s t : Emit.occurs sub s -> Emit.occurs sub (s ++ t).
Proof.
  intros (b & a & ->). exists b, (a ++ t). by rewrite !string_app_assoc.
Qed.

Lemma route_text_nbsp d auth endpoint :
  Emit.occurs Emit.nbsp (Emit.route_text d auth endpoint).
Proof.
  unfold Emit.route_text, Emit.indent.
  do 8 apply occurs_app_r. apply occurs_app_l, occurs_here.
Qed.

(** X11. The text written for any list of at least one endpoint, and so
    the file of every generation call, contains the character U+00A0
    (no-break space): the indentation of every route body is written with
    it instead of plain spaces. *)
Theorem emitted_text_has_no_break_space :
  (forall filename endpoint endpoints d auth key,
     Emit.occurs Emit.nbsp (Emit.api_file_text filename (endpoint :: endpoints) d auth key))
  /\ (forall q rng, Emit.occurs Emit.nbsp (Emit.generated_file_text q rng)).
Proof.
  assert (forall filename endpoint endpoints d auth key,
            Emit.occurs Emit.nbsp
              (Emit.api_file_text filename (endpoint :: endpoints) d auth key)) as H.
  { intros. unfold Emit.api_file_text. do 16 apply occurs_app_r.
    cbn [map String.concat]. destruct (map _ endpoints).
    - apply route_text_nbsp.
    - apply occurs_app_l, route_text_nbsp. }
  split; [exact H|]. intros q rng. unfold Emit.generated_file_text.
  exact (H _ _ _ _ _ _).
Qed.

(** The file checked in as [generated_apis/instagram_swiggy_api.py] is this
    text followed by one more line feed. *)
Example emitted_instagram_swiggy :
  Emit.generated_file_text (Query "Instagram" "Swiggy" ["name"] false)
    (fun i => nth i [6; 2; 8; 2] 0)
  = String.concat Emit.nl
      ["from fastapi import FastAPI, Header, HTTPException, Depends";
       "from typing import Optional";
       EmptyString;
       "app = FastAPI(title='Generated API for instagram_swiggy')";
       EmptyString;
       "HARDCODED_API_KEY = 'INS-6282-SWI'";
       EmptyString;
       "@app.get('/instagramtoswiggy')";
       "def get_data():";
       Emit.indent ++ "return {'status':'success','data':{'name': 'sample_name'}}";
       EmptyString;
       "@app.get('/swiggytoinstagram')";
       "def get_data():";
       Emit.indent ++ "return {'status':'success','data':{'name': 'sample_name'}}";
       EmptyString;
       EmptyString].
Proof. vm_compute. reflexivity. Qed.

(** Likewise [generated_apis/swiggy_zomato_api.py], with the gate. *)
Example emitted_swiggy_zomato :
  Emit.generated_file_text (Query "Swiggy" "Zomato" ["id"] true)
    (fun i => nth i [4; 0; 5; 4] 0)
  = String.concat Emit.nl
      ["from fastapi import FastAPI, Header, HTTPException, Depends";
       "from typing import Optional";
       EmptyString;
       "app = FastAPI(title='Generated API for swiggy_zomato')";
       EmptyString;
       "HARDCODED_API_KEY = 'SWI-4054-ZOM'";
       EmptyString;
       "def verify_api_key(api_key: Optional[str] = Header(None, alias='X-API-Key')):";
       Emit.indent ++ "if not api_key or api_key != HARDCODED_API_KEY:";
       Emit.indent ++ Emit.indent
         ++ "raise HTTPException(status_code=401, detail='Invalid or missing X-API-Key header')";
       Emit.indent ++ "return True";
       EmptyString;
       "@app.get('/swiggytozomato', dependencies=[Depends(verify_api_key)])";
       "def get_data():";
       Emit.indent ++ "return {'status':'success','data':{'id': 'sample_id'}}";
       EmptyString;
       "@app.get('/zomatotoswiggy', dependencies=[Depends(verify_api_key)])";
       "def get_data():";
       Emit.indent ++ "return {'status':'success','data':{'id': 'sample_id'}}";
       EmptyString;
       EmptyString].
Proof. vm_compute. reflexivity. Qed.

(** ** Where files are written and read *)

Lemma os_path_join_generated_apis name :
  os_path_join "generated_apis" name
  = if PyStr.startswith "/" name then name else "generated_apis/" ++ name.
Proof. unfold os_path_join. by destruct (PyStr.startswith "/" name). Qed.


(** X12. The download endpoint takes the artifact directory into account
    for relative names only: for a [file] value that begins with a slash
    the joined path is the value itself, so the endpoint serves that
    absolute path; any other value is looked up as
    ["generated_apis/" + file]. *)
Theorem download_absolute_name (stat : string -> option fsnode) (file : string) :
  os_path_join "generated_apis" file
  = (if PyStr.startswith "/" file then file else "generated_apis/" ++ file)
  /\ (PyStr.startswith "/" file = true ->
      forall content, stat file = Some (RegularFile content) ->
                      download_api stat file = FileResponse content file).
Proof.
  split; [apply os_path_join_generated_apis|].
  intros Habs content Hstat.
  apply download_api_found.
  by rewrite os_path_join_generated_apis, Habs.
Qed.

Lemma download_absolute_name_witness :
  PyStr.startswith "/" "/etc/hostname" = true
  /\ Sample.root_disk "/etc/hostname" = Some (RegularFile "specforge-host")
  /\ download_api Sample.root_disk "/etc/hostname"
     = FileResponse "specforge-host" "/etc/hostname".
Proof.
  split; [reflexivity|]. split; [reflexivity|].
  apply (proj2 (download_absolute_name Sample.root_disk "/etc/hostname"));
    reflexivity.
Defined.



(** X14. Whenever a generation call returns, as it does when both paths
    hold no brace and the file can be written, the file name it returns
    names the file it wrote: the download endpoint, given that name as
    [file], looks at exactly the path the call opened for writing, and
    returns the content found there; the returned download link is
    ["/download_api?file="] followed by that name, without any
    encoding. *)
Theorem emitted_file_is_downloadable
    (fw : framework) (q : query) (rng : nat -> nat) (disk : string -> bool) (s : server)
    (stat : string -> option fsnode) (content : string) :
  (forall result,
     snd (generate_api fw q rng disk s) = Some result ->
     exists path,
       last (written (fst (generate_api fw q rng disk s))) = Some path
       /\ path = os_path_join "generated_apis" (file_name result)
       /\ download_link result = "/download_api?file=" ++ file_name result
       /\ (stat path = Some (RegularFile content) ->
           download_api stat (file_name result) = FileResponse content (file_name result)))
  /\ (has_brace ("/" ++ clean (app1 q) ++ "to" ++ clean (app2 q)) = false ->
      has_brace ("/" ++ clean (app2 q) ++ "to" ++ clean (app1 q)) = false ->
      disk (filepath_of q) = true ->
      is_Some (snd (generate_api fw q rng disk s))).
Proof.
  rewrite generate_api_spec. cbn [fst snd]. split.
  - intros result. unfold generated_state. cbn [written].
    destruct (succeeds fw q disk); [|done]. intros [= <-].
    eexists. rewrite last_snoc. cbn [file_name download_link generated_result].
    split_and!; [reflexivity..|].
    intros Hstat. by apply download_api_found.
  - intros H1 H2 Hd. rewrite succeeds_plain by done. by eexists.
Qed.

Lemma emitted_file_is_downloadable_witness :
  has_brace "//srv/xtob" = false /\ has_brace "/bto/srv/x" = false
  /\ Scenario.writable (filepath_of Sample.rooted) = true
  /\ Sample.root_disk "/srv/x_b_api.py" = Some (RegularFile "from fastapi import FastAPI")
  /\ download_api Sample.root_disk "/srv/x_b_api.py"
     = FileResponse "from fastapi import FastAPI" "/srv/x_b_api.py".
Proof.
  split_and!; [reflexivity..|].
  destruct (emitted_file_is_downloadable Scenario.no_patterns Sample.rooted Scenario.zeros
              Scenario.writable startup Sample.root_disk "from fastapi import FastAPI")
    as [Hret Hsome].
  destruct (Hsome eq_refl eq_refl eq_refl) as [result Hres].
  destruct (Hret result Hres) as (path & _ & -> & _ & Hget).
  apply generate_api_returns in Hres as ->.
  apply Hget. reflexivity.
Defined.

(** ** Calls that raise *)

Lemma succeeds_refused fw q disk :
  all_accepted fw (endpoints_of q) = false -> succeeds fw q disk = false.
Proof. unfold succeeds. by intros ->. Qed.

Lemma new_routes_refused fw f endpoints :
  all_accepted fw endpoints = false ->
  length (new_routes fw f endpoints) < length endpoints.
Proof.
  induction endpoints as [|e rest IH]; [done|].
  cbn [new_routes all_accepted]. destruct (compile_path fw e); cbn [length].
  - intros H. specialize (IH H). lia.
  - lia.
Qed.

(** X16. When the router refuses one of the two paths of a generation
    call, the call raises in the loop: it has no result, writes no file
    and leaves fewer than two new routes (none when the first path is the
    one refused), yet the store already holds the configuration of the
    call, so the guard from then on decides by the credential and flag of
    a call that was answered with an error. *)
Theorem refused_route_keeps_configuration (fw : framework) (q : query)
    (rng : nat -> nat) (disk : string -> bool) (s : server) :
  all_accepted fw (endpoints_of q) = false ->
  let s' := fst (generate_api fw q rng disk s) in
  snd (generate_api fw q rng disk s) = None
  /\ written s' = written s
  /\ routes s `prefix_of` routes s'
  /\ length (routes s') < length (routes s) + 2
  /\ (compile_path fw ("/" ++ clean (app1 q) ++ "to" ++ clean (app2 q)) = None ->
      routes s' = routes s)
  /\ MOCK_CONFIG s' = config_of q rng (S (length (heap s))) ∪ MOCK_CONFIG s
  /\ (forall hdr,
        verify_live_api_key s' hdr =
        if require_auth q
           && negb (bool_decide (hdr = Some (generate_api_key (app1 q) (app2 q) rng)))
        then inl unauthorized else inr true).
Proof.
  intros Href s'. subst s'. rewrite generate_api_spec. cbn [fst snd].
  rewrite succeeds_refused by done. split_and!.
  - reflexivity.
  - unfold generated_state. cbn [written]. rewrite succeeds_refused by done.
    by rewrite app_nil_r.
  - unfold generated_state. cbn [routes]. by apply prefix_app_r.
  - unfold generated_state. cbn [routes]. rewrite length_app.
    pose proof (new_routes_refused fw (S (S (length (heap s)))) _ Href) as H.
    cbn [endpoints_of length] in H. lia.
  - intros H1. unfold generated_state, endpoints_of. cbn [routes new_routes].
    rewrite H1. by rewrite app_nil_r.
  - reflexivity.
  - intros hdr. rewrite verify_after_generation.
    rewrite header_verdict by apply generate_api_key_nonempty.
    by destruct (require_auth q), (bool_decide _).
Qed.

Lemma refused_route_keeps_configuration_witness :
  all_accepted Scenario.no_patterns (endpoints_of (Query "{x}" "{x}" ["id"] true)) = false
  /\ snd (generate_api Scenario.no_patterns (Query "{x}" "{x}" ["id"] true) Scenario.zeros
            Scenario.writable startup) = None
  /\ routes (fst (generate_api Scenario.no_patterns (Query "{x}" "{x}" ["id"] true)
                    Scenario.zeros Scenario.writable startup)) = [].
Proof.
  assert (all_accepted Scenario.no_patterns
            (endpoints_of (Query "{x}" "{x}" ["id"] true)) = false) as H by reflexivity.
  split; [exact H|].
  destruct (refused_route_keeps_configuration Scenario.no_patterns
              (Query "{x}" "{x}" ["id"] true) Scenario.zeros Scenario.writable startup H)
    as (Hnone & _ & _ & _ & Hroutes & _).
  split; [exact Hnone|]. apply Hroutes. reflexivity.
Defined.



(** ** What the page sends *)

Lemma trimEnd_cons c r :
  Page.trimEnd (String c r) =
  match Page.trimEnd r with
  | EmptyString => if PyStr.whitespace c then EmptyString else String c EmptyString
  | r' => String c r'
  end.
Proof. reflexivity. Qed.

Lemma trimEnd_idem s : Page.trimEnd (Page.trimEnd s) = Page.trimEnd s.
Proof.
  induction s as [|c s IH]; [reflexivity|].
  rewrite trimEnd_cons. destruct (Page.trimEnd s) as [|c' t] eqn:E.
  - destruct (PyStr.whitespace c) eqn:Hc; [reflexivity|].
    rewrite trimEnd_cons. cbn [Page.trimEnd]. by rewrite Hc.
  - rewrite trimEnd_cons. by rewrite IH.
Qed.

Lemma trim_idem s : Page.trim (Page.trim s) = Page.trim s.
Proof.
  destruct (trim_head s) as [H | (c & r & H & Hc)]; rewrite H; [reflexivity|].
  unfold Page.trim at 1. cbn [Page.trimStart]. rewrite Hc, <- H.
  unfold Page.trim. apply trimEnd_idem.
Qed.

Lemma any_trimStart p s : PyStr.any p (Page.trimStart s) = true -> PyStr.any p s = true.
Proof.
  induction s as [|c s IH]; [done|]. cbn [Page.trimStart].
  destruct (PyStr.whitespace c); [|done].
  intros H. cbn [PyStr.any]. by rewrite (IH H), orb_true_r.
Qed.

Lemma any_trimEnd p s : PyStr.any p (Page.trimEnd s) = true -> PyStr.any p s = true.
Proof.
  induction s as [|c s IH]; [done|]. rewrite trimEnd_cons.
  destruct (Page.trimEnd s) as [|c' t].
  - destruct (PyStr.whitespace c); [done|]. cbn [PyStr.any].
    rewrite orb_false_r. by intros ->.
  - change (PyStr.any p (String c (String c' t)))
      with (p c || PyStr.any p (String c' t)).
    cbn [PyStr.any]. destruct (p c); [done|]. cbn [orb]. exact IH.
Qed.

Lemma any_trim p s : PyStr.any p (Page.trim s) = true -> PyStr.any p s = true.
Proof. intros H. by apply any_trimStart, any_trimEnd. Qed.

Lemma split_no_separator sep s x :
  x ∈ Page.split sep s -> PyStr.any (fun c => Ascii.eqb c sep) x = false.
Proof.
  revert x. induction s as [|c s IH]; intros x.
  - by intros ->%list_elem_of_singleton.
  - cbn [Page.split]. destruct (Ascii.eqb c sep) eqn:Hc.
    + intros [->|Hin]%elem_of_cons; [reflexivity|by apply IH].
    + destruct (Page.split sep s) as [|h t] eqn:E.
      * intros ->%list_elem_of_singleton. cbn [PyStr.any]. by rewrite Hc.
      * intros [->|Hin]%elem_of_cons.
        -- cbn [PyStr.any]. rewrite Hc. apply IH, list_elem_of_here.
        -- by apply IH, list_elem_of_further.
Qed.

(** X15. A request sent by the page form carries the two names with
    surrounding white space removed and not empty, the flag
    [require_auth] set exactly when the select holds the text [true], and
    at least one field; every field is non-empty, has no surrounding white
    space and no comma. *)
Theorem page_request_shape (a b f auth : string) (q : query) :
  Page.generateAPI a b f auth = Some q ->
  app1 q = Page.trim a /\ app2 q = Page.trim b
  /\ app1 q <> EmptyString /\ app2 q <> EmptyString
  /\ require_auth q = String.eqb auth "true"
  /\ fields q <> []
  /\ Forall (fun x => x <> EmptyString /\ Page.trim x = x
                      /\ PyStr.any (fun c => Ascii.eqb c ",") x = false) (fields q).
Proof.
  unfold Page.generateAPI.
  destruct (String.eqb (Page.trim a) EmptyString) eqn:Ha; [done|].
  destruct (String.eqb (Page.trim b) EmptyString) eqn:Hb; [done|]. cbn [orb].
  destruct (filter _ (Page.split _ _)) as [|f0 kept] eqn:Hkept; [done|].
  cbn [length Nat.eqb]. intros [= <-]. cbn [app1 app2 fields require_auth].
  apply String.eqb_neq in Ha. apply String.eqb_neq in Hb.
  split_and!; [done..|].
  rewrite Forall_forall. intros y Hy.
  change (y ∈ Page.trim <$> (f0 :: kept)) in Hy.
  apply list_elem_of_fmap in Hy as (x & -> & Hx). rewrite <- Hkept in Hx.
  apply list_elem_of_filter in Hx as [Hnb Hin].
  split_and!.
  - unfold Page.nonblank in Hnb. apply negb_true_iff, String.eqb_neq in Hnb. exact Hnb.
  - apply trim_idem.
  - destruct (PyStr.any _ (Page.trim x)) eqn:E; [|reflexivity].
    apply any_trim in E. by rewrite (split_no_separator _ _ _ Hin) in E.
Qed.

Lemma page_request_shape_witness :
  Page.generateAPI " WhatsApp Swiggy " "Zomato" "id, ,name" "true"
  = Some (Query "WhatsApp Swiggy" "Zomato" ["id"; "name"] true)
  /\ Forall (fun x => x <> EmptyString /\ Page.trim x = x
                      /\ PyStr.any (fun c => Ascii.eqb c ",") x = false) ["id"; "name"].
Proof.
  assert (Page.generateAPI " WhatsApp Swiggy " "Zomato" "id, ,name" "true"
          = Some (Query "WhatsApp Swiggy" "Zomato" ["id"; "name"] true)) as H
    by reflexivity.
  split; [exact H|].
  exact (proj2 (proj2 (proj2 (proj2 (proj2 (proj2
           (page_request_shape _ _ _ _ _ H))))))).
Defined.
